(** * Launcher.ts: the Selenoid standalone service for WebdriverIO

    A shallow embedding of [src/Launcher.ts] and the properties of its
    container lifecycle controller.

    The class talks to the outside world through four doors: [execa]
    (docker commands), [fs.pathExists], [require] (loading browsers.json)
    and the logger, plus [setTimeout].  None of them is code of the class,
    so the embedding takes their answers from a [Host] record and records
    every call, with its answer, as an [Event].  A method of the class is a
    function from the events so far to an outcome and the events it added. *)

From Stdlib Require Import String Ascii List ZArith Bool Lia DecimalString.
Import ListNotations.
Open Scope string_scope.
Open Scope list_scope.

(** String concatenation, as in a template literal. *)
Infix "+++" := String.append (right associativity, at level 60).

(* ================================================================== *)
(** ** JavaScript strings *)

Definition newline : ascii := ascii_of_nat 10.
Definition backslash : ascii := ascii_of_nat 92.

(** [s.split(sep)] for a one-character separator. *)
Fixpoint split (sep : ascii) (s : string) : list string :=
  match s with
  | EmptyString => [EmptyString]
  | String c rest =>
      if Ascii.eqb c sep then EmptyString :: split sep rest
      else match split sep rest with
           | piece :: pieces => String c piece :: pieces
           | [] => [String c EmptyString]
           end
  end.

(** [s.replace(pat, rep)] for one-character strings [pat] and [rep]:
    only the first occurrence is replaced. *)
Fixpoint replace_first (pat rep : ascii) (s : string) : string :=
  match s with
  | EmptyString => EmptyString
  | String c rest =>
      if Ascii.eqb c pat then String rep rest
      else String c (replace_first pat rep rest)
  end.

(** [s.replace(/pat/g, rep)] for a one-character pattern: every occurrence. *)
Fixpoint replace_all (pat rep : ascii) (s : string) : string :=
  match s with
  | EmptyString => EmptyString
  | String c rest =>
      String (if Ascii.eqb c pat then rep else c) (replace_all pat rep rest)
  end.

(** Number of occurrences of a character. *)
Fixpoint occurrences (c : ascii) (s : string) : nat :=
  match s with
  | EmptyString => 0
  | String d rest => (if Ascii.eqb d c then 1 else 0) + occurrences c rest
  end.

(** [`${n}`] for an integral number (ports are whole numbers well inside
    the range where JavaScript prints plain decimal digits). *)
Definition number_toString (n : Z) : string :=
  NilZero.string_of_int (Z.to_int n).

(* ================================================================== *)
(** ** Data model *)

(** [ServiceOptions] as the caller supplies it: every property optional,
    [None] when the caller left the property out (a caller that names a
    property gives it a value of its declared type). *)
Record ServiceOptions := {
  pathToBrowsersConfig : option string;
  terminateWdioOnError : option bool;
  selenoidVersion : option string;
  skipAutoPullImage : option bool;
  selenoidContainerName : option string;
  selenoidUiContainerName : option string;
  selenoidUiVersion : option string;
  port : option Z;
  selenoidPort : option Z;
  dockerArgs : option (list string);
  selenoidUiArgs : option (list string);
  selenoidArgs : option (list string);
  skipAutoPullImages : option bool
}.

(** One version entry of browsers.json. *)
Record VersionConfig := {
  image : string;
  vport : Z;
  vpath : string
}.

(** One browser of browsers.json; [versions] is the object's properties in
    the order [Object.entries] lists them. *)
Record BrowserEntry := {
  default : string;
  versions : list (string * VersionConfig)
}.

(** browsers.json, again as [Object.entries] lists it; a file that does
    not have this shape is one of the ways [require] and the loops over it
    fail. *)
Definition BrowserConfig := list (string * BrowserEntry).

(** The errors that travel through the class. *)
Inductive Error :=
| ExecaError (message : string)
| RequireError (message : string)
| SevereServiceError (message : string).

(** [`${error}`]. *)
Definition Error_toString (e : Error) : string :=
  match e with
  | ExecaError m => "Error: " +++ m
  | RequireError m => "Error: " +++ m
  | SevereServiceError m => "SevereServiceError: " +++ m
  end.

(** What a promise returned by [execa] settles to. *)
Inductive ExecaResult :=
| Resolved (stdout : string)
| Rejected (message : string).

(** What [require(path)] does. *)
Inductive RequireResult :=
| Loaded (config : BrowserConfig)
| Failed (message : string).

Inductive Level := Debug | Info | Err.

Inductive LogArg :=
| Text (s : string)
| Obj (e : Error).

(** Everything the class does that the outside can see. *)
Inductive Event :=
| EvLog (level : Level) (args : list LogArg)
| EvExeca (file : string) (args : list string) (res : ExecaResult)
| EvPathExists (p : string) (found : bool)
| EvRequire (p : string) (res : RequireResult)
| EvSleep (ms : Z).

(** The host the service runs on.  The answers of the container engine and
    of the file system may depend on everything that happened before. *)
Record Host := {
  platform : string;
  cwd : string;
  path_join : string -> string -> string;
  path_dirname : string -> string;
  execa_reply : list Event -> string -> list string -> ExecaResult;
  pathExists_reply : list Event -> string -> bool;
  require_reply : list Event -> string -> RequireResult
}.

(** [this.options]: the defaults spread under the caller's options.  The
    nine properties with a default are always there; the other four stay
    optional. *)
Record Options := {
  o_pathToBrowsersConfig : string;
  o_skipAutoPullImage : bool;
  o_selenoidContainerName : string;
  o_terminateWdioOnError : bool;
  o_selenoidVersion : string;
  o_selenoidUiContainerName : string;
  o_selenoidUiVersion : string;
  o_port : Z;
  o_selenoidPort : Z;
  o_dockerArgs : option (list string);
  o_selenoidUiArgs : option (list string);
  o_selenoidArgs : option (list string);
  o_skipAutoPullImages : option bool
}.

(** The instance: its three private fields ([log] is the event trace). *)
Record SelenoidStandaloneService := {
  options : Options;
  dockerSocketPath : string;
  selenoidBrowsersConfigPath : string
}.

(** What a [Promise<string>] of the class really carries: the methods
    resolve with the caught error object in their catch blocks. *)
Inductive Result :=
| RUndefined
| RStdout (stdout : string)
| RError (e : Error).

(** [a || b] on an optional array (an array is always truthy). *)
Definition or_else {A : Type} (a : option A) (b : A) : A :=
  match a with Some x => x | None => b end.

(** Truthiness of an optional boolean. *)
Definition truthy (b : option bool) : bool :=
  match b with Some x => x | None => false end.

(* ================================================================== *)
(** ** Constructor *)

Definition constructor (host : Host) (serviceOptions : ServiceOptions)
  : SelenoidStandaloneService :=
  let opts :=
    {| o_pathToBrowsersConfig :=
         or_else (pathToBrowsersConfig serviceOptions) "./browsers.json";
       o_skipAutoPullImage := or_else (skipAutoPullImage serviceOptions) false;
       o_selenoidContainerName :=
         or_else (selenoidContainerName serviceOptions) "wdio_selenoid";
       o_terminateWdioOnError :=
         or_else (terminateWdioOnError serviceOptions) true;
       o_selenoidVersion :=
         or_else (selenoidVersion serviceOptions) "latest-release";
       o_selenoidUiContainerName :=
         or_else (selenoidUiContainerName serviceOptions) "wdio_selenoidui";
       o_selenoidUiVersion :=
         or_else (selenoidUiVersion serviceOptions) "latest-release";
       o_port := or_else (port serviceOptions) 8080%Z;
       o_selenoidPort := or_else (selenoidPort serviceOptions) 4444%Z;
       o_dockerArgs := dockerArgs serviceOptions;
       o_selenoidUiArgs := selenoidUiArgs serviceOptions;
       o_selenoidArgs := selenoidArgs serviceOptions;
       o_skipAutoPullImages := skipAutoPullImages serviceOptions |} in
  if String.eqb (platform host) "win32" then
    let rawBrowserPath :=
      path_join host (cwd host) (o_pathToBrowsersConfig opts) in
    {| options := opts;
       dockerSocketPath := "//var/run/docker.sock";
       selenoidBrowsersConfigPath :=
         replace_all backslash "/" (replace_first "C" "c" rawBrowserPath) |}
  else
    {| options := opts;
       dockerSocketPath := "/var/run/docker.sock";
       selenoidBrowsersConfigPath :=
         path_join host (cwd host) (o_pathToBrowsersConfig opts) |}.

(* ================================================================== *)
(** ** Effects: outcomes, the trace, early return *)

Inductive Outcome (A : Type) :=
| Normal (a : A)
| Throw (e : Error).
Arguments Normal {A} a.
Arguments Throw {A} e.

(** An awaited computation: from the events so far to an outcome and the
    events it added. *)
Definition M (A : Type) : Type := list Event -> Outcome A * list Event.

Definition ret {A : Type} (a : A) : M A := fun _ => (Normal a, []).

Definition throw {A : Type} (e : Error) : M A := fun _ => (Throw e, []).

Definition bind {A B : Type} (m : M A) (f : A -> M B) : M B := fun h =>
  match m h with
  | (Normal a, d1) => let (o, d2) := f a (h ++ d1) in (o, d1 ++ d2)
  | (Throw e, d1) => (Throw e, d1)
  end.

Declare Scope js_scope.
Delimit Scope js_scope with js.
Notation "x <- m ;; k" := (bind m (fun x => k))
  (at level 100, m at next level, right associativity) : js_scope.

(** A statement of a function whose result type is [R]: [Some r] when it
    executed [return r], [None] when control falls through to the next
    statement. *)
Definition Stmt (R : Type) : Type := M (option R).

Definition skip {R : Type} : Stmt R := ret None.

(** [await m;] *)
Definition await {A R : Type} (m : M A) : Stmt R :=
  bind m (fun _ => ret None).

(** [return m;] *)
Definition return_ {R : Type} (m : M R) : Stmt R :=
  bind m (fun r => ret (Some r)).

(** [throw e;] *)
Definition throw_ {R : Type} (e : Error) : Stmt R := throw e.

(** [const x = await m; rest] *)
Definition const {A R : Type} (m : M A) (rest : A -> Stmt R) : Stmt R :=
  bind m rest.

(** [s1; s2]: the second statement runs only if the first fell through. *)
Definition seq {R : Type} (s1 s2 : Stmt R) : Stmt R :=
  bind s1 (fun r => match r with Some v => ret (Some v) | None => s2 end).

Notation "s1 ;;; s2" := (seq s1 s2)
  (at level 95, right associativity) : js_scope.

(** [if (c) { s1 } else { s2 }] *)
Definition if_ {R : Type} (c : bool) (s1 s2 : Stmt R) : Stmt R :=
  if c then s1 else s2.

(** [try { body } catch (error) { handler }] *)
Definition try_catch {R : Type} (body : Stmt R) (handler : Error -> Stmt R)
  : Stmt R := fun h =>
  match body h with
  | (Throw e, d1) => let (o, d2) := handler e (h ++ d1) in (o, d1 ++ d2)
  | (Normal r, d1) => (Normal r, d1)
  end.

(** [for (let i = start; i < bound; i += 1) { body }], the body not
    assigning [i]: [bound - start] rounds at most. *)
Fixpoint for_rounds {R : Type} (rounds i : nat) (body : nat -> Stmt R)
  : Stmt R :=
  match rounds with
  | O => skip
  | S rounds' => seq (body i) (for_rounds rounds' (S i) body)
  end.

Definition for_lt {R : Type} (start bound : nat) (body : nat -> Stmt R)
  : Stmt R :=
  for_rounds (bound - start) start body.

(** [for (const x of xs) { body }] *)
Fixpoint for_of {A R : Type} (xs : list A) (body : A -> Stmt R) : Stmt R :=
  match xs with
  | [] => skip
  | x :: xs' => seq (body x) (for_of xs' body)
  end.

(** The body of an [async] function: falling off its end resolves with
    [undefined]. *)
Definition async {R : Type} (undefined : R) (body : Stmt R) : M R :=
  bind body (fun r => ret (match r with Some v => v | None => undefined end)).

(** The events a computation adds, and its outcome. *)
Definition events {A : Type} (m : M A) (h : list Event) : list Event :=
  snd (m h).
Definition outcome {A : Type} (m : M A) (h : list Event) : Outcome A :=
  fst (m h).

(* ================================================================== *)
(** ** The outside world *)

Section Launcher.

Variable host : Host.

(** [this.log.debug/info/error(...)] *)
Definition log (level : Level) (args : list LogArg) : M unit :=
  fun _ => (Normal tt, [EvLog level args]).

(** [execa(file, args)], destructured to its [stdout]; a rejected promise
    is a thrown error at the [await]. *)
Definition execa (file : string) (args : list string) : M string := fun h =>
  let res := execa_reply host h file args in
  (match res with
   | Resolved stdout => Normal stdout
   | Rejected message => Throw (ExecaError message)
   end, [EvExeca file args res]).

(** [fs.pathExists(p)] *)
Definition pathExists (p : string) : M bool := fun h =>
  let found := pathExists_reply host h p in
  (Normal found, [EvPathExists p found]).

(** [require(p)] *)
Definition require (p : string) : M BrowserConfig := fun h =>
  let res := require_reply host h p in
  (match res with
   | Loaded config => Normal config
   | Failed message => Throw (RequireError message)
   end, [EvRequire p res]).

(** [new Promise((resolve) => setTimeout(resolve, timeout))] *)
Definition sleep (timeout : Z) : M unit :=
  fun _ => (Normal tt, [EvSleep timeout]).

(* ================================================================== *)
(** ** The methods of [SelenoidStandaloneService] *)

Variable this : SelenoidStandaloneService.

Local Open Scope js_scope.

Definition stopSelenoid : M Result :=
  async RUndefined (
    await (log Info [Text "Stopping any running selenoid containers"]) ;;;
    try_catch
      (const (execa "docker"
                ["rm"; "-f"; o_selenoidContainerName (options this)])
         (fun stdout => return_ (ret (RStdout stdout))))
      (fun error => return_ (ret (RError error)))).

(** The argument list [startSelenoid] builds. *)
Definition startSelenoid_startArgs : list string :=
  let dockerArgs := or_else (o_dockerArgs (options this)) [] in
  let selenoidArgs := or_else (o_selenoidArgs (options this)) [] in
  ["run"; "-d"; "--name"; o_selenoidContainerName (options this);
   "-p"; "4444:4444";
   "-v"; dockerSocketPath this +++ ":/var/run/docker.sock";
   "-v"; path_dirname host (selenoidBrowsersConfigPath this)
           +++ "/:/etc/selenoid/:ro"]
  ++ dockerArgs
  ++ ["aerokube/selenoid:" +++ o_selenoidVersion (options this)]
  ++ selenoidArgs.

Definition startSelenoid : M Result :=
  async RUndefined (
    await (log Info [Text "Starting Selenoid Container"]) ;;;
    try_catch
      (const (execa "docker" startSelenoid_startArgs)
         (fun stdout => return_ (ret (RStdout stdout))))
      (fun error =>
         if_ (Bool.eqb (o_terminateWdioOnError (options this)) true)
           (throw_ (SevereServiceError
              ("Unable to start selenoid container " +++ String newline
                 (Error_toString error))))
           skip ;;;
         return_ (ret (RError error)))).

Definition verifySelenoidBrowserConfig : M unit :=
  async tt (
    const (pathExists (selenoidBrowsersConfigPath this)) (fun filePath =>
    if_ (negb filePath)
      (await (log Err [Text ("Unable to find browsers.json at "
                               +++ selenoidBrowsersConfigPath this)]) ;;;
       if_ (Bool.eqb (o_terminateWdioOnError (options this)) true)
         (throw_ (SevereServiceError
            ("Unable to find browsers.json at "
               +++ selenoidBrowsersConfigPath this)))
         skip)
      skip ;;;
    return_ (ret tt))).

Definition doesImageExist (imageName : string) : M bool :=
  async false (
    try_catch
      (await (log Debug [Text ("Checking image " +++ imageName +++ " exists")]) ;;;
       const (execa "docker" ["image"; "ls"; "-f"; "reference=" +++ imageName])
         (fun stdout =>
            let results := split newline stdout in
            return_ (ret (2 <=? List.length results)%nat)))
      (fun error =>
         await (log Err [Obj error]) ;;;
         return_ (ret true))).

(** The two nested [forEach] loops that fill [browserImages] by [push]. *)
Definition browserImages_of (selenoidConfig : BrowserConfig) : list string :=
  fold_left
    (fun browserImages '(_browserName, browserConfig) =>
       fold_left
         (fun browserImages '(_version, versionConfig) =>
            browserImages ++ [image versionConfig])
         (versions browserConfig) browserImages)
    selenoidConfig [].

Definition pullRequiredBrowserFiles : M unit :=
  async tt (
    try_catch
      (const (require (selenoidBrowsersConfigPath this)) (fun selenoidConfig =>
       let browserImages := browserImages_of selenoidConfig in
       for_of browserImages (fun image =>
         const (doesImageExist image) (fun present =>
         if_ present
           (await (log Info [Text ("Skipping pull. Image: " +++ image
                                     +++ " already exists")]))
           (await (log Info [Text ("Pulling image " +++ image)]) ;;;
            await (execa "docker" ["pull"; image]))))))
      (fun error => await (log Err [Obj error])) ;;;
    return_ (ret tt)).

Definition pullRequiredSelenoidVersion : M unit :=
  async tt (
    let image := "aerokube/selenoid:" +++ o_selenoidVersion (options this) in
    const (doesImageExist image) (fun present =>
    if_ present
      (await (log Info [Text ("Skipping pull.  Image " +++ image
                                +++ " already exists")]))
      (try_catch
         (await (log Info [Text ("Pulling selenoid image 'aerokube/selenoid:"
                                   +++ o_selenoidVersion (options this)
                                   +++ "'")]) ;;;
          await (execa "docker"
                   ["pull";
                    "aerokube/selenoid:" +++ o_selenoidVersion (options this)]))
         (fun error => await (log Err [Obj error]))) ;;;
    return_ (ret tt))).

Definition stopSelenoidUi : M Result :=
  async RUndefined (
    await (log Info [Text "Stopping any running selenoid-ui containers"]) ;;;
    try_catch
      (const (execa "docker"
                ["rm"; "-f"; o_selenoidUiContainerName (options this)])
         (fun stdout => return_ (ret (RStdout stdout))))
      (fun error => return_ (ret (RError error)))).

(** The argument list [startSelenoidUi] builds. *)
Definition startSelenoidUi_startArgs : list string :=
  let dockerArgs := or_else (o_dockerArgs (options this)) [] in
  let selenoidUiArgs := or_else (o_selenoidUiArgs (options this)) [] in
  ["run"; "-d"; "--name"; o_selenoidUiContainerName (options this);
   "-p"; number_toString (o_port (options this)) +++ ":8080";
   "--link"; o_selenoidContainerName (options this)]
  ++ dockerArgs
  ++ ["aerokube/selenoid-ui:" +++ o_selenoidUiVersion (options this);
      "--selenoid-uri";
      "http://" +++ o_selenoidContainerName (options this) +++ ":"
        +++ number_toString (o_selenoidPort (options this))]
  ++ selenoidUiArgs.

Definition startSelenoidUi : M Result :=
  async RUndefined (
    await (log Info [Text "Starting Selenoid-Ui Container"]) ;;;
    try_catch
      (const (execa "docker" startSelenoidUi_startArgs)
         (fun stdout => return_ (ret (RStdout stdout))))
      (fun error => return_ (ret (RError error)))).

Definition pullRequiredSelenoidUiVersion : M unit :=
  async tt (
    let image :=
      "aerokube/selenoid-ui:" +++ o_selenoidUiVersion (options this) in
    const (doesImageExist image) (fun present =>
    if_ present
      (await (log Info [Text ("Skipping pull.  Image " +++ image
                                +++ " already exists")]))
      (try_catch
         (await (log Info
                   [Text ("Pulling selenoid image 'aerokube/selenoid-ui:"
                            +++ o_selenoidUiVersion (options this) +++ "'")]) ;;;
          await (execa "docker"
                   ["pull";
                    "aerokube/selenoid-ui:"
                      +++ o_selenoidUiVersion (options this)]))
         (fun error => await (log Err [Obj error]))) ;;;
    return_ (ret tt))).

Definition waitForSelenoidToBeRunning : M unit :=
  async tt (
    await (log Info [Text "Waiting for Selenoid to be Running"]) ;;;
    for_lt 0 10 (fun _i =>
      try_catch
        (const (execa "docker"
                  ["ps"; "-f";
                   "name=" +++ o_selenoidContainerName (options this)])
           (fun stdout =>
              let results := split newline stdout in
              if_ (2 <=? List.length results)%nat (return_ (ret tt)) skip))
        (fun error =>
           await (log Debug
                    [Text "Error when checking for Selenoid container: ";
                     Obj error])) ;;;
      await (log Debug [Text "Selenoid container not started, waiting 1s"]) ;;;
      await (sleep 1000)) ;;;
    return_ (ret tt)).

(** The hooks ignore the configuration and capabilities they are handed;
    only the exit code of [onComplete] is kept here, unused as it is. *)
Definition onPrepare : M Result :=
  async RUndefined (
    await stopSelenoid ;;;
    await stopSelenoidUi ;;;
    await verifySelenoidBrowserConfig ;;;
    if_ (negb (truthy (o_skipAutoPullImages (options this))))
      (await pullRequiredBrowserFiles ;;;
       await pullRequiredSelenoidUiVersion ;;;
       await pullRequiredSelenoidVersion)
      skip ;;;
    return_ startSelenoid ;;;
    await waitForSelenoidToBeRunning ;;;
    return_ startSelenoidUi).

Definition onComplete (_exitCode : Z) : M Result :=
  async RUndefined (
    return_ stopSelenoid ;;;
    return_ stopSelenoidUi).

End Launcher.

(* ================================================================== *)
(** ** Reasoning about computations *)

(** Every event a computation adds passes the test [p], whatever happened
    before and whatever the host answers. *)
Definition Emits {A : Type} (p : Event -> bool) (m : M A) : Prop :=
  forall h, Forall (fun ev => p ev = true) (events m h).

(** A computation that never throws. *)
Definition Succeeds {A : Type} (m : M A) : Prop :=
  forall h, exists a, outcome m h = Normal a.

(** Two computations that cannot be told apart. *)
Definition same {A : Type} (m1 m2 : M A) : Prop := forall h, m1 h = m2 h.


(** *** Telling events apart *)

(** A container-engine command, named by its first argument
    ([rm], [run], [pull], [image], [ps]). *)
Definition is_command (name : string) (ev : Event) : bool :=
  match ev with
  | EvExeca _ (c :: _) _ => String.eqb c name
  | _ => false
  end.

(** An info line with exactly this text. *)
Definition is_info (text : string) (ev : Event) : bool :=
  match ev with
  | EvLog Info [Text s] => String.eqb s text
  | _ => false
  end.

Definition is_sleep (ev : Event) : bool :=
  match ev with EvSleep _ => true | _ => false end.

Definition is_pathExists (ev : Event) : bool :=
  match ev with EvPathExists _ _ => true | _ => false end.

(** The [run] command of the UI container: the one whose seventh argument
    is [--link] (the gateway's is [-v]). *)
Definition is_ui_run (ev : Event) : bool :=
  match ev with
  | EvExeca _ args _ =>
      String.eqb (nth 0 args "") "run" && String.eqb (nth 6 args "") "--link"
  | _ => false
  end.

(** What the readiness wait and the start of the UI container would leave
    in the trace. *)
Definition trailing_step (ev : Event) : bool :=
  is_info "Waiting for Selenoid to be Running" ev
  || is_command "ps" ev
  || is_sleep ev
  || is_info "Starting Selenoid-Ui Container" ev
  || is_ui_run ev.

(** The outcome of a listing ([image ls], [ps]): more than the header row. *)
Definition lists_something (res : ExecaResult) : bool :=
  match res with
  | Resolved stdout => (2 <=? List.length (split newline stdout))%nat
  | Rejected _ => false
  end.

(** What a stop method resolves with. *)
Definition settled (res : ExecaResult) : Result :=
  match res with
  | Resolved stdout => RStdout stdout
  | Rejected message => RError (ExecaError message)
  end.

(** *** The steps of the prepare sequence that run *)

Section Steps.

Variable host : Host.
Variable this : SelenoidStandaloneService.

Local Open Scope js_scope.

(** Step 4: the three resolution passes, unless pulling is skipped. *)
Definition resolveImages : M unit :=
  if negb (truthy (o_skipAutoPullImages (options this))) then
    _ <- pullRequiredBrowserFiles host this ;;
    _ <- pullRequiredSelenoidUiVersion host this ;;
    pullRequiredSelenoidVersion host this
  else ret tt.

(** Steps 1 to 5, and nothing after them. *)
Definition onPrepare_steps : M Result :=
  _ <- stopSelenoid host this ;;
  _ <- stopSelenoidUi host this ;;
  _ <- verifySelenoidBrowserConfig host this ;;
  _ <- resolveImages ;;
  startSelenoid host this.

(** The prepare sequence with its three resolution passes. *)
Definition onPrepare_pulling : M Result :=
  _ <- stopSelenoid host this ;;
  _ <- stopSelenoidUi host this ;;
  _ <- verifySelenoidBrowserConfig host this ;;
  _ <- pullRequiredBrowserFiles host this ;;
  _ <- pullRequiredSelenoidUiVersion host this ;;
  _ <- pullRequiredSelenoidVersion host this ;;
  startSelenoid host this.

(** The prepare sequence without them. *)
Definition onPrepare_skipping : M Result :=
  _ <- stopSelenoid host this ;;
  _ <- stopSelenoidUi host this ;;
  _ <- verifySelenoidBrowserConfig host this ;;
  startSelenoid host this.

End Steps.

(** Neither a [run] command nor a look at the file system. *)
Definition resolution_only (ev : Event) : bool :=
  negb (is_command "run" ev) && negb (is_pathExists ev).

(** What [startSelenoid] does with the engine's answer. *)
Definition started (terminate : bool) (res : ExecaResult) : Outcome Result :=
  match res with
  | Resolved stdout => Normal (RStdout stdout)
  | Rejected message =>
      if terminate
      then Throw (SevereServiceError
             ("Unable to start selenoid container " +++ String newline
                ("Error: " +++ message)))
      else Normal (RError (ExecaError message))
  end.

(** *** The shape of a readiness wait *)

(** One round of the wait that did not see the container: the listing,
    the debug line of the catch block if the listing was rejected, then the
    debug line and the one-second sleep that end every such round. *)
Definition failed_round (args : list string) (res : ExecaResult)
  : list Event :=
  EvExeca "docker" args res
  :: match res with
     | Resolved _ => []
     | Rejected message =>
         [EvLog Debug [Text "Error when checking for Selenoid container: ";
                       Obj (ExecaError message)]]
     end
  ++ [EvLog Debug [Text "Selenoid container not started, waiting 1s"];
      EvSleep 1000].

(** The listing that ends the wait early, if there is one. *)
Definition last_listing (args : list string) (success : option ExecaResult)
  : list Event :=
  match success with
  | Some res => [EvExeca "docker" args res]
  | None => []
  end.

(** How many listings a trace holds, and how long it slept (ms). *)
Definition attempts (d : list Event) : nat :=
  List.length (filter (is_command "ps") d).

Fixpoint slept (d : list Event) : Z :=
  match d with
  | [] => 0
  | EvSleep ms :: d' => ms + slept d'
  | _ :: d' => slept d'
  end.

(** *** The shape of an image-resolution pass *)

(** [doesImageExist] answers true on a listing of two lines or more, and
    on a listing that was rejected. *)
Definition reported_present (res : ExecaResult) : bool :=
  match res with
  | Resolved stdout => (2 <=? List.length (split newline stdout))%nat
  | Rejected _ => true
  end.

(** What [doesImageExist] leaves in the trace. *)
Definition check_events (imageName : string) (res : ExecaResult)
  : list Event :=
  [EvLog Debug [Text ("Checking image " +++ imageName +++ " exists")];
   EvExeca "docker" ["image"; "ls"; "-f"; "reference=" +++ imageName] res]
  ++ match res with
     | Resolved _ => []
     | Rejected message => [EvLog Err [Obj (ExecaError message)]]
     end.

(** The trace of the loop of [pullRequiredBrowserFiles] over a list of
    images, and the message of the rejected pull that cut it short, if any:
    an image reported present is checked and not pulled; an image reported
    absent is checked and pulled once; a rejected pull ends the loop. *)
Inductive BrowserPass : list string -> list Event -> option string -> Prop :=
| pass_done : BrowserPass [] [] None
| pass_present image rest res d failure :
    reported_present res = true ->
    BrowserPass rest d failure ->
    BrowserPass (image :: rest)
      (check_events image res
       ++ [EvLog Info [Text ("Skipping pull. Image: " +++ image
                               +++ " already exists")]]
       ++ d)
      failure
| pass_pulled image rest res stdout d failure :
    reported_present res = false ->
    BrowserPass rest d failure ->
    BrowserPass (image :: rest)
      (check_events image res
       ++ [EvLog Info [Text ("Pulling image " +++ image)];
           EvExeca "docker" ["pull"; image] (Resolved stdout)]
       ++ d)
      failure
| pass_failed image rest res message :
    reported_present res = false ->
    BrowserPass (image :: rest)
      (check_events image res
       ++ [EvLog Info [Text ("Pulling image " +++ image)];
           EvExeca "docker" ["pull"; image] (Rejected message)])
      (Some message).

(** The error line of a catch block, if there was an error. *)
Definition error_line (failure : option string) : list Event :=
  match failure with
  | Some message => [EvLog Err [Obj (ExecaError message)]]
  | None => []
  end.

(** The [pull] commands of a trace, by image. *)
Definition pulls_of (image : string) (d : list Event) : nat :=
  List.length
    (filter (fun ev =>
               match ev with
               | EvExeca _ [c; i] _ => String.eqb c "pull" && String.eqb i image
               | _ => false
               end) d).

(** *** Options, one property changed *)

Definition no_options : ServiceOptions :=
  {| pathToBrowsersConfig := None; terminateWdioOnError := None;
     selenoidVersion := None; skipAutoPullImage := None;
     selenoidContainerName := None; selenoidUiContainerName := None;
     selenoidUiVersion := None; port := None; selenoidPort := None;
     dockerArgs := None; selenoidUiArgs := None; selenoidArgs := None;
     skipAutoPullImages := None |}.

Definition with_skipAutoPullImage (v : option bool) (so : ServiceOptions)
  : ServiceOptions :=
  {| pathToBrowsersConfig := pathToBrowsersConfig so;
     terminateWdioOnError := terminateWdioOnError so;
     selenoidVersion := selenoidVersion so;
     skipAutoPullImage := v;
     selenoidContainerName := selenoidContainerName so;
     selenoidUiContainerName := selenoidUiContainerName so;
     selenoidUiVersion := selenoidUiVersion so;
     port := port so;
     selenoidPort := selenoidPort so;
     dockerArgs := dockerArgs so;
     selenoidUiArgs := selenoidUiArgs so;
     selenoidArgs := selenoidArgs so;
     skipAutoPullImages := skipAutoPullImages so |}.

Definition with_skipAutoPullImages (v : option bool) (so : ServiceOptions)
  : ServiceOptions :=
  {| pathToBrowsersConfig := pathToBrowsersConfig so;
     terminateWdioOnError := terminateWdioOnError so;
     selenoidVersion := selenoidVersion so;
     skipAutoPullImage := skipAutoPullImage so;
     selenoidContainerName := selenoidContainerName so;
     selenoidUiContainerName := selenoidUiContainerName so;
     selenoidUiVersion := selenoidUiVersion so;
     port := port so;
     selenoidPort := selenoidPort so;
     dockerArgs := dockerArgs so;
     selenoidUiArgs := selenoidUiArgs so;
     selenoidArgs := selenoidArgs so;
     skipAutoPullImages := v |}.

Definition with_selenoidPort (v : option Z) (so : ServiceOptions)
  : ServiceOptions :=
  {| pathToBrowsersConfig := pathToBrowsersConfig so;
     terminateWdioOnError := terminateWdioOnError so;
     selenoidVersion := selenoidVersion so;
     skipAutoPullImage := skipAutoPullImage so;
     selenoidContainerName := selenoidContainerName so;
     selenoidUiContainerName := selenoidUiContainerName so;
     selenoidUiVersion := selenoidUiVersion so;
     port := port so;
     selenoidPort := v;
     dockerArgs := dockerArgs so;
     selenoidUiArgs := selenoidUiArgs so;
     selenoidArgs := selenoidArgs so;
     skipAutoPullImages := skipAutoPullImages so |}.

(** *** Sample hosts *)

(** [path.posix.join] of a directory and a relative file name that has at
    most a leading [./]. *)
Definition posix_join (dir file : string) : string :=
  dir +++ "/"
    +++ (if String.prefix "./" file
         then String.substring 2 (String.length file - 2) file
         else file).

(** [path.win32.join] of a directory and a relative file name that has at
    most a leading [./]: the parts are joined by a backslash. *)
Definition win32_join (dir file : string) : string :=
  dir +++ String backslash
    (if String.prefix "./" file
     then String.substring 2 (String.length file - 2) file
     else file).

(** [path.dirname] of a file that lies in a directory other than the root:
    everything before the last forward slash. *)
Fixpoint dirname (p : string) : string :=
  match p with
  | EmptyString => EmptyString
  | String c rest =>
      if (0 <? occurrences "/" rest)%nat then String c (dirname rest)
      else EmptyString
  end.

(** A listing that holds its header row only. *)
Definition header_only : string :=
  "REPOSITORY   TAG   IMAGE ID   CREATED   SIZE".

(** A browsers.json with two images. *)
Definition two_images : BrowserConfig :=
  [("chrome",
    {| default := "1.0";
       versions :=
         [("1.0", {| image := "browsers/a:1"; vport := 4444; vpath := "/" |});
          ("2.0", {| image := "browsers/b:2"; vport := 4444; vpath := "/" |})]
    |})].

(** An engine with no image at hand, no registry in reach and no way to
    run a container: every image listing holds the header only, every
    [pull] and every [run] is rejected. *)
Definition offline_engine (_ : list Event) (_ : string) (args : list string)
  : ExecaResult :=
  let command := hd "" args in
  if String.eqb command "image" then Resolved header_only
  else if String.eqb command "pull" then Rejected "pull access denied"
  else if String.eqb command "run" then Rejected "Unable to find image"
  else Resolved "".

(** A Linux host on that engine, with or without a browsers.json. *)
Definition linux_host (config_found : bool) : Host :=
  {| platform := "linux";
     cwd := "/work";
     path_join := posix_join;
     path_dirname := dirname;
     execa_reply := offline_engine;
     pathExists_reply := fun _ _ => config_found;
     require_reply := fun _ _ =>
       if config_found then Loaded two_images
       else Failed "Cannot find module '/work/browsers.json'" |}.

(** A Windows host whose working directory is on drive D. *)
Definition windows_host : Host :=
  {| platform := "win32";
     cwd := "D:" +++ String backslash ("Code" +++ String backslash "proj");
     path_join := win32_join;
     path_dirname := dirname;
     execa_reply := offline_engine;
     pathExists_reply := fun _ _ => true;
     require_reply := fun _ _ => Loaded two_images |}.

(** *** More ways to read a trace *)

(** The container-engine commands of a trace, by name and in order. *)
Fixpoint commands (d : list Event) : list string :=
  match d with
  | [] => []
  | EvExeca _ (c :: _) _ :: d' => c :: commands d'
  | _ :: d' => commands d'
  end.

(** How many image listings a trace holds. *)
Definition listings_of (d : list Event) : nat :=
  List.length (filter (is_command "image") d).

Definition is_require (ev : Event) : bool :=
  match ev with EvRequire _ _ => true | _ => false end.

(** A [pull] that the engine rejected. *)
Definition is_rejected_pull (ev : Event) : bool :=
  match ev with
  | EvExeca _ (c :: _) (Rejected _) => String.eqb c "pull"
  | _ => false
  end.

(** Every answer a trace records is the answer the host gives at that
    point, the trace having started after the history [h]. *)
Fixpoint answered (host : Host) (h d : list Event) : Prop :=
  match d with
  | [] => True
  | ev :: d' =>
      match ev with
      | EvExeca file args res => res = execa_reply host h file args
      | EvPathExists p found => found = pathExists_reply host h p
      | EvRequire p res => res = require_reply host h p
      | _ => True
      end
      /\ answered host (h ++ [ev]) d'
  end.

(** *** More sample hosts *)

(** A listing of two lines: the header row and one entry. *)
Definition header_and_entry : string :=
  header_only +++ String newline "aerokube/selenoid   latest-release".

(** An engine that has every image and runs every container: listings
    hold an entry, everything else resolves. *)
Definition stocked_engine (_ : list Event) (_ : string) (args : list string)
  : ExecaResult :=
  let command := hd "" args in
  if String.eqb command "image" then Resolved header_and_entry
  else if String.eqb command "ps" then Resolved header_and_entry
  else Resolved "3f2a9c".

(** A Linux host on that engine. *)
Definition stocked_host : Host :=
  {| platform := "linux";
     cwd := "/work";
     path_join := posix_join;
     path_dirname := dirname;
     execa_reply := stocked_engine;
     pathExists_reply := fun _ _ => true;
     require_reply := fun _ _ => Loaded two_images |}.

(** A Windows host whose working directory is on drive C. *)
Definition windows_c_host : Host :=
  {| platform := "win32";
     cwd := "C:" +++ String backslash ("Users" +++ String backslash "ci");
     path_join := win32_join;
     path_dirname := dirname;
     execa_reply := offline_engine;
     pathExists_reply := fun _ _ => true;
     require_reply := fun _ _ => Loaded two_images |}.

(** A property of traces that every computation built from others
    inherits: [P h d] speaks of a trace [d] that started after [h]. *)
Definition Keeps {A : Type} (P : list Event -> list Event -> Prop) (m : M A)
  : Prop :=
  forall h, P h (events m h).

(** What step 4 may leave in a trace: log lines, the loading of
    browsers.json, and [image] and [pull] commands. *)
Definition resolution_step (ev : Event) : bool :=
  match ev with
  | EvExeca _ (c :: _) _ => String.eqb c "image" || String.eqb c "pull"
  | EvExeca _ [] _ => false
  | EvPathExists _ _ => false
  | EvSleep _ => false
  | _ => true
  end.

(** A trace without a [pull] command (whatever came before it). *)
Definition no_pull_in (_ d : list Event) : Prop :=
  Forall (fun ev => is_command "pull" ev = false) d.

(** A trace that does not pull the image [img] (whatever came before). *)
Definition never_pulls (img : string) (_ d : list Event) : Prop :=
  pulls_of img d = 0.

(** Options with the three properties that only [startSelenoidUi] reads
    changed. *)
Definition with_ui_settings (p sp : option Z) (args : option (list string))
  (so : ServiceOptions) : ServiceOptions :=
  {| pathToBrowsersConfig := pathToBrowsersConfig so;
     terminateWdioOnError := terminateWdioOnError so;
     selenoidVersion := selenoidVersion so;
     skipAutoPullImage := skipAutoPullImage so;
     selenoidContainerName := selenoidContainerName so;
     selenoidUiContainerName := selenoidUiContainerName so;
     selenoidUiVersion := selenoidUiVersion so;
     port := p;
     selenoidPort := sp;
     dockerArgs := dockerArgs so;
     selenoidUiArgs := args;
     selenoidArgs := selenoidArgs so;
     skipAutoPullImages := skipAutoPullImages so |}.

(** The [reference=...] filters of the image listings of a trace, in
    order, and the answers they got. *)
Fixpoint listing_refs (d : list Event) : list string :=
  match d with
  | [] => []
  | EvExeca _ (c :: _ :: _ :: ref :: _) _ :: d' =>
      if String.eqb c "image" then ref :: listing_refs d' else listing_refs d'
  | _ :: d' => listing_refs d'
  end.


(** The images a trace pulls, in order. *)
Fixpoint pulled_images (d : list Event) : list string :=
  match d with
  | [] => []
  | EvExeca _ (c :: i :: _) _ :: d' =>
      if String.eqb c "pull" then i :: pulled_images d' else pulled_images d'
  | _ :: d' => pulled_images d'
  end.


Definition with_terminateWdioOnError (v : option bool) (so : ServiceOptions)
  : ServiceOptions :=
  {| pathToBrowsersConfig := pathToBrowsersConfig so;
     terminateWdioOnError := v;
     selenoidVersion := selenoidVersion so;
     skipAutoPullImage := skipAutoPullImage so;
     selenoidContainerName := selenoidContainerName so;
     selenoidUiContainerName := selenoidUiContainerName so;
     selenoidUiVersion := selenoidUiVersion so;
     port := port so;
     selenoidPort := selenoidPort so;
     dockerArgs := dockerArgs so;
     selenoidUiArgs := selenoidUiArgs so;
     selenoidArgs := selenoidArgs so;
     skipAutoPullImages := skipAutoPullImages so |}.
Section Combinators.

Context {A B R : Type}.

Lemma bind_normal (m : M A) (f : A -> M B) h a d :
  m h = (Normal a, d) ->
  bind m f h = (fst (f a (h ++ d)), d ++ snd (f a (h ++ d))).
Proof.
  intros E. unfold bind. rewrite E. destruct (f a (h ++ d)). reflexivity.
Qed.

Lemma bind_run (m : M A) (f : A -> M B) h a d o d' :
  m h = (Normal a, d) -> f a (h ++ d) = (o, d') ->
  bind m f h = (o, d ++ d').
Proof. intros E1 E2. unfold bind. rewrite E1, E2. reflexivity. Qed.

Lemma bind_throw (m : M A) (f : A -> M B) h e d :
  m h = (Throw e, d) -> bind m f h = (Throw e, d).
Proof. intros E. unfold bind. rewrite E. reflexivity. Qed.

Lemma bind_same (m1 m2 : M A) (f1 f2 : A -> M B) :
  same m1 m2 -> (forall a, same (f1 a) (f2 a)) ->
  same (bind m1 f1) (bind m2 f2).
Proof.
  intros Hm Hf h. unfold bind. rewrite Hm.
  destruct (m2 h) as [[a | e] d]; [rewrite Hf |]; reflexivity.
Qed.

Lemma bind_ret_r (m : M A) : same (bind m ret) m.
Proof.
  intros h. unfold bind, ret. destruct (m h) as [[a | e] d]; [| reflexivity].
  rewrite app_nil_r. reflexivity.
Qed.

Lemma bind_ret_l (a : A) (f : A -> M B) : same (bind (ret a) f) (f a).
Proof.
  intros h. unfold bind, ret. rewrite app_nil_r.
  destruct (f a h) as [o d]. reflexivity.
Qed.

Lemma emits_bind p (m : M A) (f : A -> M B) :
  Emits p m -> (forall a, Emits p (f a)) -> Emits p (bind m f).
Proof.
  intros Hm Hf h. unfold events, bind. specialize (Hm h). unfold events in Hm.
  destruct (m h) as [[a | e] d]; simpl in *; [| assumption].
  specialize (Hf a (h ++ d)). unfold events in Hf.
  destruct (f a (h ++ d)) as [o d2]; simpl in *.
  apply Forall_app; split; assumption.
Qed.

Lemma succeeds_bind (m : M A) (f : A -> M B) :
  Succeeds m -> (forall a, Succeeds (f a)) -> Succeeds (bind m f).
Proof.
  intros Hm Hf h. unfold outcome, bind. destruct (Hm h) as [a Ha].
  unfold outcome in Ha. destruct (m h) as [o d]; simpl in Ha; subst o.
  destruct (Hf a (h ++ d)) as [b Hb]. unfold outcome in Hb.
  destruct (f a (h ++ d)) as [o d2]; simpl in *. exists b. assumption.
Qed.

Lemma emits_ret p (a : A) : Emits p (ret a).
Proof. intros h. constructor. Qed.

Lemma succeeds_ret (a : A) : Succeeds (ret a).
Proof. intros h. exists a. reflexivity. Qed.

Lemma emits_throw p e : Emits p (@throw A e).
Proof. intros h. constructor. Qed.

Lemma emits_try_catch p (body : Stmt R) handler :
  Emits p body -> (forall e, Emits p (handler e)) ->
  Emits p (try_catch body handler).
Proof.
  intros Hb Hh h. unfold events, try_catch. specialize (Hb h).
  unfold events in Hb. destruct (body h) as [[r | e] d]; simpl in *;
    [assumption |].
  specialize (Hh e (h ++ d)). unfold events in Hh.
  destruct (handler e (h ++ d)) as [o d2]; simpl in *.
  apply Forall_app; split; assumption.
Qed.

Lemma succeeds_try_catch (body : Stmt R) handler :
  (forall e, Succeeds (handler e)) -> Succeeds (try_catch body handler).
Proof.
  intros Hh h. unfold outcome, try_catch.
  destruct (body h) as [[r | e] d]; simpl; [exists r; reflexivity |].
  destruct (Hh e (h ++ d)) as [r Hr]. unfold outcome in Hr.
  destruct (handler e (h ++ d)) as [o d2]; simpl in *. exists r. assumption.
Qed.

End Combinators.

Lemma ends_with {A : Type} (a b c : list A) (x y : A) :
  exists d, a ++ b ++ c ++ [x; y] = d ++ [y].
Proof.
  exists (a ++ b ++ c ++ [x]). rewrite <- !app_assoc. reflexivity.
Qed.

Lemma bind_assoc {A B C : Type} (m : M A) (f : A -> M B) (g : B -> M C) :
  same (bind (bind m f) g) (bind m (fun a => bind (f a) g)).
Proof.
  intros h. unfold bind.
  destruct (m h) as [[a | e] d1]; [| reflexivity].
  destruct (f a (h ++ d1)) as [[b | e] d2]; [| reflexivity].
  rewrite <- app_assoc.
  destruct (g b (h ++ d1 ++ d2)) as [o d3]. rewrite <- app_assoc. reflexivity.
Qed.

Section Statements.

Context {A R : Type}.

Lemma emits_skip p : Emits p (@skip R).
Proof. apply emits_ret. Qed.

Lemma succeeds_skip : Succeeds (@skip R).
Proof. apply succeeds_ret. Qed.

Lemma emits_throw_ p e : Emits p (@throw_ R e).
Proof. apply emits_throw. Qed.

Lemma emits_await p (m : M A) : Emits p m -> Emits p (@await A R m).
Proof. intros H. apply emits_bind; [assumption | intros; apply emits_ret]. Qed.

Lemma succeeds_await (m : M A) : Succeeds m -> Succeeds (@await A R m).
Proof.
  intros H. apply succeeds_bind; [assumption | intros; apply succeeds_ret].
Qed.

Lemma emits_return p (m : M R) : Emits p m -> Emits p (return_ m).
Proof. intros H. apply emits_bind; [assumption | intros; apply emits_ret]. Qed.

Lemma succeeds_return (m : M R) : Succeeds m -> Succeeds (return_ m).
Proof.
  intros H. apply succeeds_bind; [assumption | intros; apply succeeds_ret].
Qed.

Lemma emits_const p (m : M A) (rest : A -> Stmt R) :
  Emits p m -> (forall a, Emits p (rest a)) -> Emits p (const m rest).
Proof. apply emits_bind. Qed.

Lemma succeeds_const (m : M A) (rest : A -> Stmt R) :
  Succeeds m -> (forall a, Succeeds (rest a)) -> Succeeds (const m rest).
Proof. apply succeeds_bind. Qed.

Lemma emits_seq p (s1 s2 : Stmt R) :
  Emits p s1 -> Emits p s2 -> Emits p (seq s1 s2).
Proof.
  intros H1 H2. apply emits_bind; [assumption |].
  intros [r |]; [apply emits_ret | assumption].
Qed.

Lemma succeeds_seq (s1 s2 : Stmt R) :
  Succeeds s1 -> Succeeds s2 -> Succeeds (seq s1 s2).
Proof.
  intros H1 H2. apply succeeds_bind; [assumption |].
  intros [r |]; [apply succeeds_ret | assumption].
Qed.

Lemma emits_if p c (s1 s2 : Stmt R) :
  Emits p s1 -> Emits p s2 -> Emits p (if_ c s1 s2).
Proof. destruct c; simpl; auto. Qed.

Lemma succeeds_if c (s1 s2 : Stmt R) :
  Succeeds s1 -> Succeeds s2 -> Succeeds (if_ c s1 s2).
Proof. destruct c; simpl; auto. Qed.

Lemma emits_for_rounds p (body : nat -> Stmt R) :
  (forall i, Emits p (body i)) ->
  forall rounds i, Emits p (for_rounds rounds i body).
Proof.
  intros Hb. induction rounds as [| n IH]; intros i; simpl.
  - apply emits_skip.
  - apply emits_seq; [apply Hb | apply IH].
Qed.

Lemma succeeds_for_rounds (body : nat -> Stmt R) :
  (forall i, Succeeds (body i)) ->
  forall rounds i, Succeeds (for_rounds rounds i body).
Proof.
  intros Hb. induction rounds as [| n IH]; intros i; simpl.
  - apply succeeds_skip.
  - apply succeeds_seq; [apply Hb | apply IH].
Qed.

Lemma emits_for_lt p start bound (body : nat -> Stmt R) :
  (forall i, Emits p (body i)) -> Emits p (for_lt start bound body).
Proof. intros Hb. apply emits_for_rounds. assumption. Qed.

Lemma succeeds_for_lt start bound (body : nat -> Stmt R) :
  (forall i, Succeeds (body i)) -> Succeeds (for_lt start bound body).
Proof. intros Hb. apply succeeds_for_rounds. assumption. Qed.

Lemma emits_for_of p (xs : list A) (body : A -> Stmt R) :
  (forall x, Emits p (body x)) -> Emits p (for_of xs body).
Proof.
  intros Hb. induction xs as [| x xs IH]; simpl.
  - apply emits_skip.
  - apply emits_seq; [apply Hb | apply IH].
Qed.

Lemma emits_async p u (body : Stmt R) : Emits p body -> Emits p (async u body).
Proof. intros H. apply emits_bind; [assumption | intros; apply emits_ret]. Qed.

Lemma succeeds_async u (body : Stmt R) :
  Succeeds body -> Succeeds (async u body).
Proof.
  intros H. apply succeeds_bind; [assumption | intros; apply succeeds_ret].
Qed.

(** Dead code: nothing after a [return] runs. *)
Lemma seq_return_dead (m : M R) (s : Stmt R) :
  same (seq (return_ m) s) (return_ m).
Proof.
  intros h. unfold seq, return_, bind, ret.
  destruct (m h) as [[r | e] d]; simpl; [| reflexivity].
  rewrite !app_nil_r. reflexivity.
Qed.

Lemma seq_same (s1 s1' s2 s2' : Stmt R) :
  same s1 s1' -> same s2 s2' -> same (seq s1 s2) (seq s1' s2').
Proof.
  intros H1 H2. apply bind_same; [assumption |].
  intros [r |]; [intros h; reflexivity | assumption].
Qed.

Lemma async_same u (s s' : Stmt R) : same s s' -> same (async u s) (async u s').
Proof. intros H. apply bind_same; [assumption | intros a h; reflexivity]. Qed.

(** A function whose body is a single [return m] is [m]. *)
Lemma async_return u (m : M R) : same (async u (return_ m)) m.
Proof.
  intros h. unfold async, return_, bind, ret.
  destruct (m h) as [[r | e] d]; simpl; [| reflexivity].
  rewrite !app_nil_r. reflexivity.
Qed.

(** A function that starts by awaiting [m] is [m] followed by the rest. *)
Lemma async_await u (m : M A) (s : Stmt R) :
  same (async u (seq (await m) s)) (bind m (fun _ => async u s)).
Proof.
  intros h. unfold async, seq, await, bind, ret.
  destruct (m h) as [[a | e] d]; simpl; [| reflexivity].
  rewrite !app_nil_r.
  destruct (s (h ++ d)) as [[r | e] d2]; simpl; [| reflexivity].
  rewrite <- !app_assoc. reflexivity.
Qed.

End Statements.

Section Primitives.

Variable host : Host.

Lemma emits_log p level args :
  p (EvLog level args) = true -> Emits p (log level args).
Proof. intros H h. repeat constructor. assumption. Qed.

Lemma succeeds_log level args : Succeeds (log level args).
Proof. intros h. exists tt. reflexivity. Qed.

Lemma emits_execa p file args :
  (forall res, p (EvExeca file args res) = true) ->
  Emits p (execa host file args).
Proof. intros H h. repeat constructor. apply H. Qed.

Lemma emits_pathExists p path :
  (forall found, p (EvPathExists path found) = true) ->
  Emits p (pathExists host path).
Proof. intros H h. repeat constructor. apply H. Qed.

Lemma succeeds_pathExists path : Succeeds (pathExists host path).
Proof. intros h. eexists. reflexivity. Qed.

Lemma emits_require p path :
  (forall res, p (EvRequire path res) = true) ->
  Emits p (require host path).
Proof. intros H h. repeat constructor. apply H. Qed.

Lemma emits_sleep p timeout :
  p (EvSleep timeout) = true -> Emits p (sleep timeout).
Proof. intros H h. repeat constructor. assumption. Qed.

Lemma succeeds_sleep timeout : Succeeds (sleep timeout).
Proof. intros h. exists tt. reflexivity. Qed.

End Primitives.

(* ================================================================== *)
(** ** The methods, one by one *)

Ltac unfold_js :=
  unfold async, seq, await, return_, const, throw_, try_catch, if_, skip,
    bind, ret, throw, log, execa, pathExists, require, sleep.

Section Methods.

Variable host : Host.
Variable this : SelenoidStandaloneService.

Lemma stopSelenoid_run h :
  let line := EvLog Info [Text "Stopping any running selenoid containers"] in
  let args := ["rm"; "-f"; o_selenoidContainerName (options this)] in
  let res := execa_reply host (h ++ [line]) "docker" args in
  stopSelenoid host this h
  = (Normal (settled res), [line; EvExeca "docker" args res]).
Proof.
  unfold stopSelenoid. unfold_js. simpl.
  destruct (execa_reply host _ _ _); reflexivity.
Qed.

Lemma stopSelenoidUi_run h :
  let line := EvLog Info [Text "Stopping any running selenoid-ui containers"] in
  let args := ["rm"; "-f"; o_selenoidUiContainerName (options this)] in
  let res := execa_reply host (h ++ [line]) "docker" args in
  stopSelenoidUi host this h
  = (Normal (settled res), [line; EvExeca "docker" args res]).
Proof.
  unfold stopSelenoidUi. unfold_js. simpl.
  destruct (execa_reply host _ _ _); reflexivity.
Qed.

Lemma verifySelenoidBrowserConfig_run h :
  let path := selenoidBrowsersConfigPath this in
  let found := pathExists_reply host h path in
  let text := "Unable to find browsers.json at " +++ path in
  verifySelenoidBrowserConfig host this h
  = if found then (Normal tt, [EvPathExists path true])
    else (if o_terminateWdioOnError (options this)
          then Throw (SevereServiceError text) else Normal tt,
          [EvPathExists path false; EvLog Err [Text text]]).
Proof.
  unfold verifySelenoidBrowserConfig. unfold_js. simpl.
  destruct (pathExists_reply host h _); simpl; [reflexivity |].
  destruct (o_terminateWdioOnError (options this)); reflexivity.
Qed.

Lemma startSelenoid_run h :
  let line := EvLog Info [Text "Starting Selenoid Container"] in
  let args := startSelenoid_startArgs host this in
  let res := execa_reply host (h ++ [line]) "docker" args in
  startSelenoid host this h
  = (match res with
     | Resolved stdout => Normal (RStdout stdout)
     | Rejected message =>
         if o_terminateWdioOnError (options this)
         then Throw (SevereServiceError
                ("Unable to start selenoid container " +++ String newline
                   ("Error: " +++ message)))
         else Normal (RError (ExecaError message))
     end, [line; EvExeca "docker" args res]).
Proof.
  unfold startSelenoid. unfold_js. simpl.
  destruct (execa_reply host _ _ _); simpl; [reflexivity |].
  destruct (o_terminateWdioOnError (options this)); reflexivity.
Qed.

Lemma doesImageExist_run imageName h :
  let line := EvLog Debug [Text ("Checking image " +++ imageName +++ " exists")] in
  let args := ["image"; "ls"; "-f"; "reference=" +++ imageName] in
  let res := execa_reply host (h ++ [line]) "docker" args in
  doesImageExist host imageName h
  = match res with
    | Resolved stdout =>
        (Normal (2 <=? List.length (split newline stdout))%nat,
         [line; EvExeca "docker" args res])
    | Rejected message =>
        (Normal true,
         [line; EvExeca "docker" args res; EvLog Err [Obj (ExecaError message)]])
    end.
Proof.
  unfold doesImageExist. unfold_js. simpl.
  destruct (execa_reply host _ _ _); reflexivity.
Qed.

End Methods.

(** *** Event and outcome invariants, by the shape of the code *)

Ltac open_method :=
  unfold stopSelenoid, stopSelenoidUi, verifySelenoidBrowserConfig,
    doesImageExist, pullRequiredBrowserFiles, pullRequiredSelenoidVersion,
    pullRequiredSelenoidUiVersion, startSelenoid, startSelenoidUi,
    waitForSelenoidToBeRunning, resolveImages, onPrepare_steps.

Ltac emits_step :=
  lazymatch goal with
  | |- Emits _ (async _ _) => apply emits_async
  | |- Emits _ (seq _ _) => apply emits_seq
  | |- Emits _ (await _) => apply emits_await
  | |- Emits _ (return_ _) => apply emits_return
  | |- Emits _ (const _ _) => apply emits_const
  | |- Emits _ (try_catch _ _) => apply emits_try_catch
  | |- Emits _ (if_ _ _ _) => apply emits_if
  | |- Emits _ (for_lt _ _ _) => apply emits_for_lt
  | |- Emits _ (for_of _ _) => apply emits_for_of
  | |- Emits _ (bind _ _) => apply emits_bind
  | |- Emits _ (ret _) => apply emits_ret
  | |- Emits _ skip => apply emits_skip
  | |- Emits _ (throw_ _) => apply emits_throw_
  | |- Emits _ (log _ _) => apply emits_log
  | |- Emits _ (execa _ _ _) => apply emits_execa
  | |- Emits _ (pathExists _ _) => apply emits_pathExists
  | |- Emits _ (require _ _) => apply emits_require
  | |- Emits _ (sleep _) => apply emits_sleep
  | |- Emits _ (if ?c then _ else _) => destruct c
  | |- Emits _ (let x := _ in _) => cbv zeta
  | |- Emits _ _ => progress open_method
  | |- forall _, _ => intro
  | |- _ = true => reflexivity
  end.

Ltac emits := repeat emits_step.

Ltac succeeds_step :=
  lazymatch goal with
  | |- Succeeds (async _ _) => apply succeeds_async
  | |- Succeeds (seq _ _) => apply succeeds_seq
  | |- Succeeds (await _) => apply succeeds_await
  | |- Succeeds (return_ _) => apply succeeds_return
  | |- Succeeds (const _ _) => apply succeeds_const
  | |- Succeeds (try_catch _ _) => apply succeeds_try_catch
  | |- Succeeds (if_ _ _ _) => apply succeeds_if
  | |- Succeeds (for_lt _ _ _) => apply succeeds_for_lt
  | |- Succeeds (bind _ _) => apply succeeds_bind
  | |- Succeeds (ret _) => apply succeeds_ret
  | |- Succeeds skip => apply succeeds_skip
  | |- Succeeds (log _ _) => apply succeeds_log
  | |- Succeeds (pathExists _ _) => apply succeeds_pathExists
  | |- Succeeds (sleep _) => apply succeeds_sleep
  | |- Succeeds (if ?c then _ else _) => destruct c
  | |- Succeeds (let x := _ in _) => cbv zeta
  | |- Succeeds _ => progress open_method
  | |- forall _, _ => intro
  end.

Ltac succeeds := repeat succeeds_step.

Section Invariants.

Variable host : Host.
Variable this : SelenoidStandaloneService.

Lemma stopSelenoid_succeeds : Succeeds (stopSelenoid host this).
Proof. succeeds. Qed.

Lemma stopSelenoidUi_succeeds : Succeeds (stopSelenoidUi host this).
Proof. succeeds. Qed.

Lemma startSelenoidUi_succeeds : Succeeds (startSelenoidUi host this).
Proof. succeeds. Qed.

Lemma doesImageExist_succeeds imageName :
  Succeeds (doesImageExist host imageName).
Proof. succeeds. Qed.

Lemma pullRequiredBrowserFiles_succeeds :
  Succeeds (pullRequiredBrowserFiles host this).
Proof. succeeds. Qed.

Lemma pullRequiredSelenoidVersion_succeeds :
  Succeeds (pullRequiredSelenoidVersion host this).
Proof. succeeds. Qed.

Lemma pullRequiredSelenoidUiVersion_succeeds :
  Succeeds (pullRequiredSelenoidUiVersion host this).
Proof. succeeds. Qed.

Lemma waitForSelenoidToBeRunning_succeeds :
  Succeeds (waitForSelenoidToBeRunning host this).
Proof. succeeds. Qed.

Lemma resolveImages_succeeds : Succeeds (resolveImages host this).
Proof. succeeds. Qed.

End Invariants.

(** *** The prepare and completion hooks, step by step *)

Section Hooks.

Variable host : Host.
Variable this : SelenoidStandaloneService.

Lemma seq_assoc {R : Type} (s1 s2 s3 : Stmt R) :
  same (seq (seq s1 s2) s3) (seq s1 (seq s2 s3)).
Proof.
  intros h. unfold seq, bind, ret.
  destruct (s1 h) as [[[r1 |] | e1] d1]; simpl.
  - rewrite !app_nil_r. reflexivity.
  - destruct (s2 (h ++ d1)) as [[[r2 |] | e2] d2]; simpl.
    + rewrite !app_nil_r. reflexivity.
    + rewrite <- app_assoc.
      destruct (s3 (h ++ d1 ++ d2)) as [o d3]. rewrite <- app_assoc.
      reflexivity.
    + reflexivity.
  - reflexivity.
Qed.

Lemma seq_skip_l {R : Type} (s : Stmt R) : same (seq skip s) s.
Proof.
  intros h. unfold seq, skip, bind, ret. rewrite app_nil_r.
  destruct (s h) as [o d]. reflexivity.
Qed.

Lemma same_trans {A : Type} (m1 m2 m3 : M A) :
  same m1 m2 -> same m2 m3 -> same m1 m3.
Proof. intros H1 H2 h. rewrite H1. apply H2. Qed.

Lemma same_sym {A : Type} (m1 m2 : M A) : same m1 m2 -> same m2 m1.
Proof. intros H h. symmetry. apply H. Qed.

Lemma same_refl {A : Type} (m : M A) : same m m.
Proof. intros h. reflexivity. Qed.

Lemma onPrepare_same_steps : same (onPrepare host this) (onPrepare_steps host this).
Proof.
  unfold onPrepare, onPrepare_steps.
  eapply same_trans; [apply async_await |].
  apply bind_same; [apply same_refl | intros _].
  eapply same_trans; [apply async_await |].
  apply bind_same; [apply same_refl | intros _].
  eapply same_trans; [apply async_await |].
  apply bind_same; [apply same_refl | intros _].
  unfold resolveImages, if_.
  destruct (negb (truthy (o_skipAutoPullImages (options this)))).
  - eapply same_trans; [apply async_same, seq_assoc |].
    eapply same_trans; [apply async_await |].
    eapply same_trans; [| apply same_sym, bind_assoc].
    apply bind_same; [apply same_refl | intros _].
    eapply same_trans; [apply async_same, seq_assoc |].
    eapply same_trans; [apply async_await |].
    eapply same_trans; [| apply same_sym, bind_assoc].
    apply bind_same; [apply same_refl | intros _].
    eapply same_trans; [apply async_await |].
    apply bind_same; [apply same_refl | intros _].
    eapply same_trans; [apply async_same, seq_return_dead |].
    apply async_return.
  - eapply same_trans; [apply async_same, seq_skip_l |].
    eapply same_trans; [| apply same_sym, bind_ret_l].
    eapply same_trans; [apply async_same, seq_return_dead |].
    apply async_return.
Qed.

Lemma onComplete_same_stop exitCode :
  same (onComplete host this exitCode) (stopSelenoid host this).
Proof.
  unfold onComplete.
  eapply same_trans; [apply async_same, seq_return_dead |].
  apply async_return.
Qed.

Lemma resolveImages_resolution_only :
  Emits resolution_only (resolveImages host this).
Proof. emits. Qed.

Lemma resolveImages_skipped h :
  truthy (o_skipAutoPullImages (options this)) = true ->
  resolveImages host this h = (Normal tt, []).
Proof. intros H. unfold resolveImages. rewrite H. reflexivity. Qed.

(** Steps 4 and 5 from any point on. *)
Lemma resolve_then_start_run h :
  exists d4,
    let line := EvLog Info [Text "Starting Selenoid Container"] in
    let args := startSelenoid_startArgs host this in
    let res := execa_reply host (h ++ d4 ++ [line]) "docker" args in
    Forall (fun ev => resolution_only ev = true) d4
    /\ (truthy (o_skipAutoPullImages (options this)) = true -> d4 = [])
    /\ bind (resolveImages host this) (fun _ => startSelenoid host this) h
       = (started (o_terminateWdioOnError (options this)) res,
          d4 ++ [line; EvExeca "docker" args res]).
Proof.
  destruct (resolveImages host this h) as [o4 d4] eqn:E4.
  exists d4. cbv zeta.
  pose proof (resolveImages_resolution_only h) as P4.
  pose proof (resolveImages_succeeds host this h) as [[] S4].
  unfold events, outcome in *. rewrite E4 in *. simpl in P4, S4. subst o4.
  split; [assumption |]. split.
  - intros K. rewrite (resolveImages_skipped h K) in E4. congruence.
  - erewrite bind_run; [| exact E4 |].
    2: { rewrite startSelenoid_run. cbv zeta. reflexivity. }
    rewrite <- app_assoc. reflexivity.
Qed.

(** The whole prepare hook: what it adds to the trace and how it ends. *)
Lemma onPrepare_run h :
  exists res1 res2 d4,
    let d12 :=
      [EvLog Info [Text "Stopping any running selenoid containers"];
       EvExeca "docker" ["rm"; "-f"; o_selenoidContainerName (options this)]
         res1;
       EvLog Info [Text "Stopping any running selenoid-ui containers"];
       EvExeca "docker" ["rm"; "-f"; o_selenoidUiContainerName (options this)]
         res2] in
    let path := selenoidBrowsersConfigPath this in
    let found := pathExists_reply host (h ++ d12) path in
    let text := "Unable to find browsers.json at " +++ path in
    if negb found && o_terminateWdioOnError (options this) then
      onPrepare host this h
      = (Throw (SevereServiceError text),
         d12 ++ [EvPathExists path false; EvLog Err [Text text]])
    else
      let d3 :=
        EvPathExists path found
          :: (if found then [] else [EvLog Err [Text text]]) in
      let line := EvLog Info [Text "Starting Selenoid Container"] in
      let args := startSelenoid_startArgs host this in
      let res := execa_reply host (h ++ d12 ++ d3 ++ d4 ++ [line]) "docker" args in
      Forall (fun ev => resolution_only ev = true) d4
      /\ (truthy (o_skipAutoPullImages (options this)) = true -> d4 = [])
      /\ onPrepare host this h
         = (started (o_terminateWdioOnError (options this)) res,
            d12 ++ d3 ++ d4 ++ [line; EvExeca "docker" args res]).
Proof.
  rewrite onPrepare_same_steps. unfold onPrepare_steps.
  pose proof (stopSelenoid_run host this h) as E1. cbv zeta in E1.
  match type of E1 with _ = (_, [_; EvExeca _ _ ?r]) =>
    generalize dependent r; intros res1 E1 end.
  match type of E1 with _ = (_, ?d) => set (d1 := d) in * end.
  pose proof (stopSelenoidUi_run host this (h ++ d1)) as E2. cbv zeta in E2.
  match type of E2 with _ = (_, [_; EvExeca _ _ ?r]) =>
    generalize dependent r; intros res2 E2 end.
  match type of E2 with _ = (_, ?d) => set (d2 := d) in * end.
  exists res1, res2.
  cbv zeta.
  match goal with |- context [pathExists_reply host (h ++ ?d)] =>
    change d with (d1 ++ d2) end.
  rewrite (app_assoc h d1 d2).
  pose proof (verifySelenoidBrowserConfig_run host this ((h ++ d1) ++ d2))
    as E3. cbv zeta in E3.
  set (h2 := (h ++ d1) ++ d2) in *.
  set (path := selenoidBrowsersConfigPath this) in *.
  set (text := "Unable to find browsers.json at " +++ path) in *.
  destruct (pathExists_reply host h2 path) eqn:Efound;
    [| destruct (o_terminateWdioOnError (options this)) eqn:Eterm ];
    cbn [negb andb].
  - destruct (resolve_then_start_run (h2 ++ [EvPathExists path true]))
      as (d4 & P4 & K4 & E45). cbv zeta in E45.
    exists d4. split; [assumption |]. split; [assumption |].
    erewrite bind_run; [| exact E1 |].
    2: { erewrite bind_run; [| exact E2 |].
         2: { erewrite bind_run; [| exact E3 |]. 2: exact E45.
              reflexivity. }
         reflexivity. }
    unfold h2. rewrite <- !app_assoc. reflexivity.
  - exists [].
    erewrite bind_run; [| exact E1 |].
    2: { erewrite bind_run; [| exact E2 |].
         2: { apply bind_throw. exact E3. }
         reflexivity. }
    rewrite <- app_assoc. reflexivity.
  - destruct (resolve_then_start_run
                (h2 ++ [EvPathExists path false; EvLog Err [Text text]]))
      as (d4 & P4 & K4 & E45). cbv zeta in E45.
    exists d4. split; [assumption |]. split; [assumption |].
    erewrite bind_run; [| exact E1 |].
    2: { erewrite bind_run; [| exact E2 |].
         2: { erewrite bind_run; [| exact E3 |]. 2: exact E45.
              reflexivity. }
         reflexivity. }
    unfold h2. rewrite <- !app_assoc, Eterm. reflexivity.
Qed.

Lemma onPrepare_when_pulling :
  truthy (o_skipAutoPullImages (options this)) = false ->
  same (onPrepare host this) (onPrepare_pulling host this).
Proof.
  intros H. eapply same_trans; [apply onPrepare_same_steps |].
  unfold onPrepare_steps, onPrepare_pulling, resolveImages. rewrite H.
  cbn [negb].
  apply bind_same; [apply same_refl | intros _].
  apply bind_same; [apply same_refl | intros _].
  apply bind_same; [apply same_refl | intros _].
  eapply same_trans; [apply bind_assoc |].
  apply bind_same; [apply same_refl | intros _].
  apply bind_assoc.
Qed.

Lemma onPrepare_when_skipping :
  truthy (o_skipAutoPullImages (options this)) = true ->
  same (onPrepare host this) (onPrepare_skipping host this).
Proof.
  intros H. eapply same_trans; [apply onPrepare_same_steps |].
  unfold onPrepare_steps, onPrepare_skipping, resolveImages. rewrite H.
  cbn [negb].
  apply bind_same; [apply same_refl | intros _].
  apply bind_same; [apply same_refl | intros _].
  apply bind_same; [apply same_refl | intros _].
  apply (bind_ret_l tt (fun _ => startSelenoid host this)).
Qed.

End Hooks.

(* ================================================================== *)
(** ** The hooks never reach their trailing statements *)

Section Unreachable.

Variable host : Host.
Variable this : SelenoidStandaloneService.

Lemma onPrepare_steps_no_trailing :
  Emits (fun ev => negb (trailing_step ev)) (onPrepare_steps host this).
Proof. emits. Qed.

(** The readiness wait always announces itself. *)
Lemma waitForSelenoidToBeRunning_announced h :
  exists d,
    events (waitForSelenoidToBeRunning host this) h
    = EvLog Info [Text "Waiting for Selenoid to be Running"] :: d.
Proof.
  unfold events, waitForSelenoidToBeRunning. rewrite async_await.
  unfold bind at 1, log at 1.
  match goal with |- context [let (o, d2) := ?c in _] => destruct c as [o d] end.
  eexists. reflexivity.
Qed.

(** So does the start of the UI container. *)
Lemma startSelenoidUi_announced h :
  exists res,
    events (startSelenoidUi host this) h
    = [EvLog Info [Text "Starting Selenoid-Ui Container"];
       EvExeca "docker" (startSelenoidUi_startArgs this) res].
Proof.
  unfold events, startSelenoidUi. unfold_js. simpl.
  destruct (execa_reply host _ _ _); eexists; reflexivity.
Qed.

End Unreachable.

(** C1. For every host, configuration and history the prepare hook is its
    first five steps and nothing else: it returns what [startSelenoid]
    returns, and its trace holds no mark of the readiness wait (its info
    line, a [ps] command, a sleep) nor of the start of the UI container
    (its info line, a [run --link] command), marks those two methods always
    leave when they run.  The completion hook is [stopSelenoid] alone: one
    [rm] command, for the gateway container, and never the info line of
    [stopSelenoidUi]. *)
Theorem trailing_steps_unreachable
  (host : Host) (this : SelenoidStandaloneService) (exitCode : Z)
  (h : list Event) :
  onPrepare host this h = onPrepare_steps host this h
  /\ Forall (fun ev => trailing_step ev = false)
       (events (onPrepare host this) h)
  /\ (forall h', existsb trailing_step
                   (events (waitForSelenoidToBeRunning host this) h') = true)
  /\ (forall h', existsb trailing_step
                   (events (startSelenoidUi host this) h') = true)
  /\ onComplete host this exitCode h = stopSelenoid host this h
  /\ (exists res,
        events (onComplete host this exitCode) h
        = [EvLog Info [Text "Stopping any running selenoid containers"];
           EvExeca "docker"
             ["rm"; "-f"; o_selenoidContainerName (options this)] res])
  /\ Forall
       (fun ev =>
          is_info "Stopping any running selenoid-ui containers" ev = false)
       (events (onComplete host this exitCode) h)
  /\ (forall h', existsb
                   (is_info "Stopping any running selenoid-ui containers")
                   (events (stopSelenoidUi host this) h') = true).
Proof.
  repeat split.
  - apply onPrepare_same_steps.
  - unfold events. rewrite onPrepare_same_steps.
    eapply Forall_impl; [| apply (onPrepare_steps_no_trailing host this h)].
    intros ev H. apply negb_true_iff. exact H.
  - intros h'. destruct (waitForSelenoidToBeRunning_announced host this h')
      as [d E]. rewrite E. reflexivity.
  - intros h'. destruct (startSelenoidUi_announced host this h') as [res E].
    rewrite E. reflexivity.
  - apply onComplete_same_stop.
  - unfold events. rewrite onComplete_same_stop, stopSelenoid_run.
    eexists. reflexivity.
  - unfold events. rewrite onComplete_same_stop, stopSelenoid_run.
    repeat constructor.
  - intros h'. unfold events. rewrite stopSelenoidUi_run. reflexivity.
Qed.

(* ================================================================== *)
(** ** The image-existence check *)

Lemma length_split sep s : List.length (split sep s) = S (occurrences sep s).
Proof.
  induction s as [| c s IH]; simpl; [reflexivity |].
  destruct (Ascii.eqb c sep); simpl; [rewrite IH; reflexivity |].
  destruct (split sep s) as [| piece pieces]; simpl in *; congruence.
Qed.

(** C5. [doesImageExist] never throws.  When the listing command resolves
    it returns true exactly when the output has two or more lines (at least
    one newline: more than the header row) and logs no error; when the
    listing command is rejected it returns true and logs the error. *)
Theorem doesImageExist_listing (host : Host) (imageName : string)
  (h : list Event) :
  let line :=
    EvLog Debug [Text ("Checking image " +++ imageName +++ " exists")] in
  let args := ["image"; "ls"; "-f"; "reference=" +++ imageName] in
  let res := execa_reply host (h ++ [line]) "docker" args in
  outcome (doesImageExist host imageName) h
  = Normal (match res with
            | Resolved stdout => (2 <=? List.length (split newline stdout))%nat
            | Rejected _ => true
            end)
  /\ events (doesImageExist host imageName) h
     = line :: EvExeca "docker" args res
       :: match res with
          | Resolved _ => []
          | Rejected message => [EvLog Err [Obj (ExecaError message)]]
          end
  /\ (forall stdout,
        (2 <=? List.length (split newline stdout))%nat = true
        <-> 1 <= occurrences newline stdout).
Proof.
  cbv zeta. unfold outcome, events. rewrite doesImageExist_run. cbv zeta.
  split; [| split].
  - destruct (execa_reply host _ _ _); reflexivity.
  - destruct (execa_reply host _ _ _); reflexivity.
  - intros stdout. rewrite length_split, Nat.leb_le. lia.
Qed.

(* ================================================================== *)
(** ** The readiness wait *)

Section Polling.

Variable host : Host.
Variable args : list string.
Variable body : nat -> Stmt unit.

Hypothesis body_run : forall i h,
  body i h =
    let res := execa_reply host h "docker" args in
    if lists_something res
    then (Normal (Some tt), [EvExeca "docker" args res])
    else (Normal None, failed_round args res).

Lemma for_rounds_poll : forall rounds i h,
  exists (failures : list ExecaResult) (success : option ExecaResult),
    for_rounds rounds i body h
    = (Normal (match success with Some _ => Some tt | None => None end),
       flat_map (failed_round args) failures ++ last_listing args success)
    /\ Forall (fun res => lists_something res = false) failures
    /\ match success with
       | Some res => lists_something res = true /\ List.length failures < rounds
       | None => List.length failures = rounds
       end.
Proof.
  induction rounds as [| n IH]; intros i h.
  - exists [], None. repeat split. constructor.
  - simpl for_rounds. unfold seq, bind. rewrite body_run. cbv zeta.
    destruct (lists_something (execa_reply host h "docker" args)) eqn:E.
    + exists [], (Some (execa_reply host h "docker" args)).
      repeat split; [constructor | assumption | simpl; lia].
    + destruct (IH (S i) (h ++ failed_round args (execa_reply host h "docker" args)))
        as (failures & success & Erun & Hfail & Hlast).
      rewrite Erun.
      exists (execa_reply host h "docker" args :: failures), success.
      split; [| split].
      * cbn [flat_map]. rewrite <- app_assoc. reflexivity.
      * constructor; assumption.
      * destruct success; simpl; [split; [tauto | lia] | lia].
Qed.

End Polling.

Lemma attempts_app d1 d2 : attempts (d1 ++ d2) = attempts d1 + attempts d2.
Proof. unfold attempts. rewrite filter_app, length_app. reflexivity. Qed.

Lemma slept_app d1 d2 : slept (d1 ++ d2) = (slept d1 + slept d2)%Z.
Proof.
  induction d1 as [| ev d1 IH]; simpl; [reflexivity |].
  destruct ev; rewrite IH; lia.
Qed.

Lemma attempts_log level texts d : attempts (EvLog level texts :: d) = attempts d.
Proof. reflexivity. Qed.

Lemma slept_log level texts d : slept (EvLog level texts :: d) = slept d.
Proof. reflexivity. Qed.

Lemma attempts_failed_rounds name rest failures :
  attempts (flat_map (failed_round ("ps" :: name :: rest)) failures)
  = List.length failures.
Proof.
  induction failures as [| res failures IH]; [reflexivity |].
  cbn [flat_map]. rewrite attempts_app, IH.
  destruct res; reflexivity.
Qed.

Lemma slept_failed_rounds args failures :
  slept (flat_map (failed_round args) failures)
  = (1000 * Z.of_nat (List.length failures))%Z.
Proof.
  induction failures as [| res failures IH]; [reflexivity |].
  cbn [flat_map]. rewrite slept_app, IH.
  destruct res; cbn [failed_round slept app List.length]; lia.
Qed.

Lemma waitForSelenoidToBeRunning_run
  (host : Host) (this : SelenoidStandaloneService) (h : list Event) :
  let args :=
    ["ps"; "-f"; "name=" +++ o_selenoidContainerName (options this)] in
  exists (failures : list ExecaResult) (success : option ExecaResult),
    waitForSelenoidToBeRunning host this h
    = (Normal tt,
       EvLog Info [Text "Waiting for Selenoid to be Running"]
       :: flat_map (failed_round args) failures ++ last_listing args success)
    /\ Forall (fun res => lists_something res = false) failures
    /\ match success with
       | Some res => lists_something res = true /\ List.length failures < 10
       | None => List.length failures = 10
       end.
Proof.
  cbv zeta. unfold waitForSelenoidToBeRunning.
  rewrite async_await. unfold bind at 1, log at 1.
  set (h1 := h ++ _). unfold for_lt. cbn [Nat.sub].
  match goal with |- context [for_rounds 10 0 ?b] => set (body := b) end.
  set (args := ["ps"; "-f"; "name=" +++ o_selenoidContainerName (options this)]).
  assert (body_run : forall i h,
    body i h =
      let res := execa_reply host h "docker" args in
      if lists_something res
      then (Normal (Some tt), [EvExeca "docker" args res])
      else (Normal None, failed_round args res)).
  { intros i h0. unfold body. unfold_js. cbv zeta. fold args.
    destruct (execa_reply host h0 "docker" args) as [stdout | message];
      cbn [lists_something].
    - destruct (2 <=? List.length (split newline stdout))%nat; reflexivity.
    - reflexivity. }
  destruct (for_rounds_poll host args body body_run 10 0 h1)
    as (failures & success & Erun & Hfail & Hlast).
  exists failures, success.
  assert (Easync :
    async tt (seq (for_rounds 10 0 body) (return_ (ret tt))) h1
    = (Normal tt,
       flat_map (failed_round args) failures ++ last_listing args success)).
  { unfold async, seq, return_, bind. rewrite Erun.
    destruct success; simpl; rewrite ?app_nil_r; reflexivity. }
  rewrite Easync. repeat split; assumption.
Qed.


(* ================================================================== *)
(** ** The terminate-on-error policy in the prepare hook *)

Lemma startSelenoid_startArgs_run_command host this res :
  is_command "run"
    (EvExeca "docker" (startSelenoid_startArgs host this) res) = true.
Proof. reflexivity. Qed.

Lemma commands_app d1 d2 : commands (d1 ++ d2) = commands d1 ++ commands d2.
Proof.
  induction d1 as [| ev d1 IH]; [reflexivity |].
  destruct ev as [| file [| c args] res | | |]; simpl; rewrite IH; reflexivity.
Qed.

Lemma commands_start host this level texts res :
  commands [EvLog level texts;
            EvExeca "docker" (startSelenoid_startArgs host this) res]
  = ["run"].
Proof. reflexivity. Qed.

Lemma resolution_only_not_run d ev :
  Forall (fun ev => resolution_only ev = true) d -> In ev d ->
  is_command "run" ev = false /\ is_pathExists ev = false.
Proof.
  intros HF HI. rewrite Forall_forall in HF. specialize (HF ev HI).
  unfold resolution_only in HF. apply andb_true_iff in HF as [H1 H2].
  apply negb_true_iff in H1, H2. split; assumption.
Qed.

(** C2. Whenever the prepare hook finds the browser-configuration file
    absent, it logs the error line; it throws if and only if
    [terminateWdioOnError] is true; if it is, the error is the
    [SevereServiceError] of the verifier and no [run] command is in the
    trace; if it is not, the hook does not throw and the last thing it
    does is to issue a command to the engine that is a detached [run],
    under the name of the gateway container, of the gateway image. *)
Theorem config_absent_policy
  (host : Host) (this : SelenoidStandaloneService) (h : list Event) :
  let path := selenoidBrowsersConfigPath this in
  let text := "Unable to find browsers.json at " +++ path in
  let d := events (onPrepare host this) h in
  In (EvPathExists path false) d ->
  In (EvLog Err [Text text]) d
  /\ ((exists e, outcome (onPrepare host this) h = Throw e)
      <-> o_terminateWdioOnError (options this) = true)
  /\ (o_terminateWdioOnError (options this) = true ->
      outcome (onPrepare host this) h = Throw (SevereServiceError text)
      /\ Forall (fun ev => is_command "run" ev = false) d)
  /\ (o_terminateWdioOnError (options this) = false ->
      (exists r, outcome (onPrepare host this) h = Normal r)
      /\ (exists d' res,
            d = d' ++ [EvExeca "docker" (startSelenoid_startArgs host this) res])
      /\ firstn 4 (startSelenoid_startArgs host this)
         = ["run"; "-d"; "--name"; o_selenoidContainerName (options this)]
      /\ In ("aerokube/selenoid:" +++ o_selenoidVersion (options this))
           (startSelenoid_startArgs host this)
      /\ existsb (is_command "run") d = true
      /\ last (commands d) "" = "run").
Proof.
  cbv zeta. unfold events, outcome.
  destruct (onPrepare_run host this h) as (res1 & res2 & d4 & H).
  cbv zeta in H.
  destruct (pathExists_reply host _ _) eqn:Efound;
    [| destruct (o_terminateWdioOnError (options this)) eqn:Eterm ];
    cbn [negb andb] in H.
  - destruct H as (P4 & _ & E). rewrite E. cbn [fst snd]. intros HI.
    exfalso. rewrite !in_app_iff in HI. simpl in HI.
    destruct HI as [HI | [HI | [HI | HI]]].
    + intuition discriminate.
    + intuition discriminate.
    + destruct (resolution_only_not_run _ _ P4 HI) as [_ HP]. discriminate.
    + intuition discriminate.
  - rewrite H. cbn [fst snd]. intros _. split; [| split; [| split]].
    + rewrite in_app_iff. right. simpl. auto.
    + split; [reflexivity | intros _; eexists; reflexivity].
    + intros _. split; [reflexivity |]. repeat constructor.
    + intros Hc. discriminate.
  - destruct H as (P4 & _ & E). rewrite E. cbn [fst snd]. intros _.
    split; [| split; [| split]].
    + rewrite !in_app_iff. right. left. simpl. auto.
    + split; [| intros Hc; discriminate].
      intros [e He]. unfold started in He.
      destruct (execa_reply host _ _ _); discriminate.
    + intros Hc. discriminate.
    + intros _. split; [| split; [| split; [| split; [| split]]]].
      * unfold started. destruct (execa_reply host _ _ _); eexists; reflexivity.
      * match goal with
        | |- exists d' res, ?a ++ ?b ++ ?c ++ [?x; EvExeca ?f ?g ?r] = _ =>
            destruct (ends_with a b c x (EvExeca f g r)) as [d' Ed'];
            exists d', r; exact Ed'
        end.
      * reflexivity.
      * unfold startSelenoid_startArgs. cbv zeta. rewrite !in_app_iff.
        right. right. left. left. reflexivity.
      * rewrite !existsb_app. cbn [existsb]. 
        rewrite startSelenoid_startArgs_run_command.
        rewrite !orb_true_r. reflexivity.
      * rewrite !commands_app, commands_start, !app_assoc.
        apply last_last.
Qed.

(** C3. Whenever the [run] command of the gateway container is rejected in
    the prepare hook, that command is the last event of the trace (no later
    step runs); the hook throws if and only if [terminateWdioOnError] is
    true, and then the error is the [SevereServiceError] of
    [startSelenoid]; otherwise the hook resolves with the caught error as
    its result. *)
Theorem gateway_start_failure_policy
  (host : Host) (this : SelenoidStandaloneService) (h : list Event)
  (message : string) :
  let d := events (onPrepare host this) h in
  let failed :=
    EvExeca "docker" (startSelenoid_startArgs host this) (Rejected message) in
  In failed d ->
  (exists d', d = d' ++ [failed])
  /\ ((exists e, outcome (onPrepare host this) h = Throw e)
      <-> o_terminateWdioOnError (options this) = true)
  /\ (o_terminateWdioOnError (options this) = true ->
      outcome (onPrepare host this) h
      = Throw (SevereServiceError
                 ("Unable to start selenoid container " +++ String newline
                    ("Error: " +++ message))))
  /\ (o_terminateWdioOnError (options this) = false ->
      outcome (onPrepare host this) h = Normal (RError (ExecaError message))).
Proof.
  cbv zeta. unfold events, outcome.
  destruct (onPrepare_run host this h) as (res1 & res2 & d4 & H).
  cbv zeta in H.
  destruct (negb (pathExists_reply host _ _)
            && o_terminateWdioOnError (options this)).
  - rewrite H. cbn [fst snd]. intros HI. exfalso.
    rewrite in_app_iff in HI. simpl in HI.
    unfold startSelenoid_startArgs in HI. simpl in HI.
    intuition discriminate.
  - destruct H as (P4 & _ & E). rewrite E. cbn [fst snd]. intros HI.
    match type of E with _ = (started _ ?r, _) =>
      assert (Eres : r = Rejected message) end.
    { rewrite !in_app_iff in HI.
      destruct HI as [HI | [HI | [HI | HI]]].
      - exfalso. simpl in HI. unfold startSelenoid_startArgs in HI.
        simpl in HI. intuition discriminate.
      - exfalso. simpl in HI. destruct (pathExists_reply host _ _);
          simpl in HI; intuition discriminate.
      - exfalso. destruct (resolution_only_not_run _ _ P4 HI) as [HR _].
        rewrite startSelenoid_startArgs_run_command in HR. discriminate.
      - simpl in HI. destruct HI as [HI | [HI | []]]; [discriminate |].
        injection HI as HI. exact HI. }
    rewrite Eres. split; [| split; [| split]].
    + apply ends_with.
    + unfold started. destruct (o_terminateWdioOnError (options this)).
      * split; [reflexivity | intros _; eexists; reflexivity].
      * split; [intros [e He]; discriminate | intros Hc; discriminate].
    + intros Ht. unfold started. rewrite Ht. reflexivity.
    + intros Ht. unfold started. rewrite Ht. reflexivity.
Qed.

(* ================================================================== *)
(** ** Image resolution *)

Lemma doesImageExist_check host imageName h :
  let res :=
    execa_reply host
      (h ++ [EvLog Debug [Text ("Checking image " +++ imageName +++ " exists")]])
      "docker" ["image"; "ls"; "-f"; "reference=" +++ imageName] in
  doesImageExist host imageName h
  = (Normal (reported_present res), check_events imageName res).
Proof.
  cbv zeta. rewrite doesImageExist_run. cbv zeta.
  destruct (execa_reply host _ _ _); reflexivity.
Qed.

Section BrowserLoop.

Variable host : Host.
Variable body : string -> Stmt unit.

Hypothesis body_run : forall image h,
  exists res,
    body image h =
      if reported_present res
      then (Normal None,
            check_events image res
            ++ [EvLog Info [Text ("Skipping pull. Image: " +++ image
                                    +++ " already exists")]])
      else
        let line := EvLog Info [Text ("Pulling image " +++ image)] in
        let pull :=
          execa_reply host (h ++ check_events image res ++ [line])
            "docker" ["pull"; image] in
        (match pull with
         | Resolved _ => Normal None
         | Rejected message => Throw (ExecaError message)
         end,
         check_events image res ++ [line; EvExeca "docker" ["pull"; image] pull]).

Lemma for_of_browser_pass : forall images h,
  exists d failure,
    for_of images body h
    = (match failure with
       | None => Normal None
       | Some message => Throw (ExecaError message)
       end, d)
    /\ BrowserPass images d failure.
Proof.
  induction images as [| image rest IH]; intros h.
  - exists [], None. split; [reflexivity | constructor].
  - cbn [for_of]. unfold seq, bind.
    destruct (body_run image h) as [res Ebody]. rewrite Ebody.
    destruct (reported_present res) eqn:Epresent.
    + destruct (IH (h ++ check_events image res
                      ++ [EvLog Info [Text ("Skipping pull. Image: " +++ image
                                              +++ " already exists")]]))
        as (d & failure & Erest & Hpass).
      rewrite Erest. eexists. exists failure. split; [reflexivity |].
      rewrite <- app_assoc. apply pass_present; assumption.
    + cbv zeta.
      destruct (execa_reply host _ "docker" ["pull"; image])
        as [stdout | message] eqn:Epull.
      * destruct (IH (h ++ check_events image res
                        ++ [EvLog Info [Text ("Pulling image " +++ image)];
                            EvExeca "docker" ["pull"; image] (Resolved stdout)]))
          as (d & failure & Erest & Hpass).
        rewrite Erest. eexists. exists failure. split; [reflexivity |].
        rewrite <- app_assoc. apply pass_pulled; assumption.
      * eexists. exists (Some message). split; [reflexivity |].
        apply pass_failed; assumption.
Qed.

End BrowserLoop.

Section Passes.

Variable host : Host.
Variable this : SelenoidStandaloneService.

Lemma pullRequiredBrowserFiles_run h :
  let path := selenoidBrowsersConfigPath this in
  let res := require_reply host h path in
  exists d,
    pullRequiredBrowserFiles host this h = (Normal tt, EvRequire path res :: d)
    /\ match res with
       | Loaded config =>
           exists d' failure,
             BrowserPass (browserImages_of config) d' failure
             /\ d = d' ++ error_line failure
       | Failed message => d = [EvLog Err [Obj (RequireError message)]]
       end.
Proof.
  cbv zeta. unfold pullRequiredBrowserFiles.
  match goal with |- context [for_of _ ?b] => set (body := b) end.
  assert (body_run : forall image h, exists res,
    body image h =
      if reported_present res
      then (Normal None,
            check_events image res
            ++ [EvLog Info [Text ("Skipping pull. Image: " +++ image
                                    +++ " already exists")]])
      else
        let line := EvLog Info [Text ("Pulling image " +++ image)] in
        let pull :=
          execa_reply host (h ++ check_events image res ++ [line])
            "docker" ["pull"; image] in
        (match pull with
         | Resolved _ => Normal None
         | Rejected message => Throw (ExecaError message)
         end,
         check_events image res ++ [line; EvExeca "docker" ["pull"; image] pull])).
  { intros image h0. unfold body, const, bind.
    rewrite doesImageExist_check. cbv zeta.
    match goal with |- context [check_events image ?r] => exists r; set (res := r) end.
    destruct (reported_present res); unfold_js; simpl.
    - reflexivity.
    - rewrite <- !app_assoc. simpl.
      destruct (execa_reply host _ "docker" ["pull"; image]); reflexivity. }
  unfold async, seq, try_catch, const. unfold bind at 1 2 3. unfold require at 1.
  destruct (require_reply host h (selenoidBrowsersConfigPath this))
    as [config | message] eqn:Ereq.
  - destruct (for_of_browser_pass host body body_run (browserImages_of config)
                (h ++ [EvRequire (selenoidBrowsersConfigPath this) (Loaded config)]))
      as (d & failure & Eloop & Hpass).
    rewrite Eloop. exists (d ++ error_line failure). split.
    + destruct failure; unfold_js; simpl; rewrite ?app_nil_r; reflexivity.
    + exists d, failure. split; [assumption | reflexivity].
  - eexists. split; [| reflexivity]. unfold_js. reflexivity.
Qed.

End Passes.

(** The browser pass never pulls an image more often than browsers.json
    lists it. *)
Lemma browser_pass_pulls_bounded images d failure :
  BrowserPass images d failure ->
  forall img, pulls_of img d <= count_occ string_dec images img.
Proof.
  assert (Hcheck : forall img i res, pulls_of img (check_events i res) = 0)
    by (intros img i res; destruct res; reflexivity).
  assert (Happ : forall img d1 d2,
            pulls_of img (d1 ++ d2) = pulls_of img d1 + pulls_of img d2)
    by (intros; unfold pulls_of; rewrite filter_app, length_app; reflexivity).
  assert (Hlog : forall img level texts,
            pulls_of img [EvLog level texts] = 0)
    by reflexivity.
  assert (Hpull : forall img i level texts res,
            pulls_of img
              [EvLog level texts; EvExeca "docker" ["pull"; i] res]
            = if String.eqb i img then 1 else 0)
    by (intros; unfold pulls_of; cbn; destruct (String.eqb i img);
        reflexivity).
  induction 1 as [| i rest res d failure Hp Hpass IH
                  | i rest res stdout d failure Hp Hpass IH
                  | i rest res message Hp]; intros img.
  - unfold pulls_of. simpl. lia.
  - rewrite !Happ, Hcheck, Hlog. specialize (IH img). cbn [count_occ].
    destruct (string_dec i img); lia.
  - rewrite !Happ, Hcheck, Hpull. specialize (IH img). cbn [count_occ].
    destruct (string_dec i img) as [-> | Hne].
    + rewrite String.eqb_refl. lia.
    + destruct (String.eqb_spec i img); [contradiction | lia].
  - rewrite !Happ, Hcheck, Hpull. cbn [count_occ].
    destruct (string_dec i img) as [-> | Hne].
    + rewrite String.eqb_refl. lia.
    + destruct (String.eqb_spec i img); [contradiction | lia].
Qed.

(** C4 fails on the code.  browsers.json lists two images, both absent,
    and the engine rejects every pull.  The prepare hook pulls the first
    image once; the rejection leaves the loop of
    [pullRequiredBrowserFiles], whose one [try] holds the whole loop, and
    the second image is neither listed nor pulled, although it is absent.
    The UI pass and the gateway pass, each with a [try] of its own around
    its pull, go on after their rejected pulls. *)
Theorem failed_pull_ends_browser_pass :
  let host := linux_host true in
  let d := events (onPrepare host (constructor host no_options)) [] in
  browserImages_of two_images = ["browsers/a:1"; "browsers/b:2"]
  /\ (forall h image,
        reported_present
          (execa_reply host h "docker"
             ["image"; "ls"; "-f"; "reference=" +++ image]) = false)
  /\ pulls_of "browsers/a:1" d = 1
  /\ pulls_of "browsers/b:2" d = 0
  /\ ~ (forall image, In image (browserImages_of two_images) ->
        pulls_of image d = 1)
  /\ listing_refs d
     = ["reference=browsers/a:1";
        "reference=aerokube/selenoid-ui:latest-release";
        "reference=aerokube/selenoid:latest-release"]
  /\ pulled_images d
     = ["browsers/a:1"; "aerokube/selenoid-ui:latest-release";
        "aerokube/selenoid:latest-release"]
  /\ existsb is_rejected_pull
       (events (pullRequiredBrowserFiles host (constructor host no_options)) [])
     = true.
Proof.
  cbv zeta. split; [reflexivity |]. split; [intros; reflexivity |].
  split; [vm_compute; reflexivity |]. split; [vm_compute; reflexivity |].
  split.
  - intros H. specialize (H "browsers/b:2" (or_intror (or_introl eq_refl))).
    vm_compute in H. discriminate.
  - repeat split; vm_compute; reflexivity.
Qed.

(* ================================================================== *)
(** ** Skipping the pulls *)

Lemma onPrepare_steps_no_pull host this :
  truthy (o_skipAutoPullImages (options this)) = true ->
  Emits (fun ev => negb (is_command "pull" ev)) (onPrepare_steps host this).
Proof.
  intros H. unfold onPrepare_steps, resolveImages. rewrite H. cbn [negb].
  emits.
Qed.

(** C7. When [skipAutoPullImages] is true the prepare hook issues no [pull]
    command at all, whatever the host holds and answers.  The constructor
    gives the option no default: left out by the caller it is undefined,
    which is falsy, and the prepare hook is then the sequence with the
    three resolution passes. *)
Theorem pull_skipping
  (host : Host) (this : SelenoidStandaloneService) (so : ServiceOptions)
  (h : list Event) :
  (truthy (o_skipAutoPullImages (options this)) = true ->
   Forall (fun ev => is_command "pull" ev = false)
     (events (onPrepare host this) h))
  /\ (skipAutoPullImages so = None ->
      let default := constructor host so in
      truthy (o_skipAutoPullImages (options default)) = false
      /\ onPrepare host default h = onPrepare_pulling host default h).
Proof.
  split.
  - intros H. unfold events. rewrite onPrepare_same_steps.
    eapply Forall_impl; [| apply (onPrepare_steps_no_pull host this H h)].
    intros ev Hev. apply negb_true_iff. exact Hev.
  - intros H. cbv zeta.
    assert (E : o_skipAutoPullImages (options (constructor host so)) = None).
    { unfold constructor. destruct (String.eqb (platform host) "win32");
        simpl; exact H. }
    assert (F : truthy (o_skipAutoPullImages (options (constructor host so)))
                = false) by (rewrite E; reflexivity).
    split; [exact F | apply onPrepare_when_pulling; exact F].
Qed.

(** On the host where every image is absent, with pulling skipped: no pull. *)
Lemma pull_skipping_witness :
  let host := linux_host true in
  let this := constructor host (with_skipAutoPullImages (Some true) no_options) in
  truthy (o_skipAutoPullImages (options this)) = true
  /\ Forall (fun ev => is_command "pull" ev = false)
       (events (onPrepare host this) []).
Proof.
  cbv zeta. split; [reflexivity |].
  apply (proj1 (pull_skipping (linux_host true)
                  (constructor (linux_host true)
                     (with_skipAutoPullImages (Some true) no_options))
                  no_options [])).
  reflexivity.
Defined.

(* ================================================================== *)
(** ** The option [skipAutoPullImage] *)

(** C10. The singular [skipAutoPullImage] is accepted and defaults to
    false, and nothing reads it: two option objects that differ in that
    property only give the same prepare hook and the same completion hook,
    outcome for outcome and event for event, on every host.  The plural
    [skipAutoPullImages] has no default and is the one that decides:
    truthy, the prepare hook is the sequence without the resolution passes;
    falsy or left out, it is the sequence with them. *)
Theorem skipAutoPullImage_ignored
  (host : Host) (so : ServiceOptions) (v : option bool) (exitCode : Z)
  (h : list Event) :
  let this := constructor host so in
  let this' := constructor host (with_skipAutoPullImage v so) in
  onPrepare host this' h = onPrepare host this h
  /\ onComplete host this' exitCode h = onComplete host this exitCode h
  /\ o_skipAutoPullImage (options this) = or_else (skipAutoPullImage so) false
  /\ o_skipAutoPullImages (options this) = skipAutoPullImages so
  /\ (if truthy (skipAutoPullImages so)
      then onPrepare host this h = onPrepare_skipping host this h
      else onPrepare host this h = onPrepare_pulling host this h).
Proof.
  cbv zeta.
  assert (E : o_skipAutoPullImages (options (constructor host so))
              = skipAutoPullImages so).
  { unfold constructor. destruct (String.eqb (platform host) "win32");
      reflexivity. }
  split; [| split; [| split; [| split; [exact E |]]]].
  - unfold constructor.
    destruct (String.eqb (platform host) "win32"); destruct so; reflexivity.
  - unfold constructor.
    destruct (String.eqb (platform host) "win32"); destruct so; reflexivity.
  - unfold constructor.
    destruct (String.eqb (platform host) "win32"); reflexivity.
  - destruct (truthy (skipAutoPullImages so)) eqn:F.
    + apply onPrepare_when_skipping. rewrite E. exact F.
    + apply onPrepare_when_pulling. rewrite E. exact F.
Qed.

(* ================================================================== *)
(** ** The published port of the gateway container *)

(** C8 fails on the code.  Whatever [selenoidPort] the caller configures,
    the [run] command of the gateway container publishes [4444:4444]: the
    mapping is a literal in [startSelenoid], which never reads the option
    (the UI container, by contrast, publishes its configured [port]). *)
Theorem gateway_port_hard_coded
  (host : Host) (so : ServiceOptions) (p : Z) :
  let this := constructor host (with_selenoidPort (Some p) so) in
  o_selenoidPort (options this) = p
  /\ firstn 6 (startSelenoid_startArgs host this)
     = ["run"; "-d"; "--name"; o_selenoidContainerName (options this);
        "-p"; "4444:4444"]
  /\ firstn 6 (startSelenoidUi_startArgs this)
     = ["run"; "-d"; "--name"; o_selenoidUiContainerName (options this);
        "-p"; number_toString (o_port (options this)) +++ ":8080"].
Proof.
  cbv zeta. unfold constructor.
  destruct (String.eqb (platform host) "win32"); repeat split.
Qed.

(** With [selenoidPort: 5555] the command still publishes 4444. *)
Example gateway_port_5555 :
  let host := linux_host true in
  startSelenoid_startArgs host
    (constructor host (with_selenoidPort (Some 5555%Z) no_options))
  = ["run"; "-d"; "--name"; "wdio_selenoid"; "-p"; "4444:4444";
     "-v"; "/var/run/docker.sock:/var/run/docker.sock";
     "-v"; "/work/:/etc/selenoid/:ro"; "aerokube/selenoid:latest-release"].
Proof. reflexivity. Qed.

(* ================================================================== *)
(** ** The mount path *)

Lemma replace_all_none pat rep s :
  Ascii.eqb rep pat = false -> occurrences pat (replace_all pat rep s) = 0.
Proof.
  intros H. induction s as [| c s IH]; simpl; [reflexivity |].
  destruct (Ascii.eqb c pat) eqn:E; rewrite ?H, ?E, IH; reflexivity.
Qed.

(** On win32 the resolved path holds no backslash. *)
Lemma win32_path_no_backslash host so :
  platform host = "win32" ->
  occurrences backslash
    (selenoidBrowsersConfigPath (constructor host so)) = 0.
Proof.
  intros H. unfold constructor. rewrite H. cbn [String.eqb].
  change (String.eqb "win32" "win32") with true. cbn [selenoidBrowsersConfigPath].
  apply replace_all_none. reflexivity.
Qed.

(** C9 fails on the code.  On a win32 host whose working directory is
    [D:\Code\proj] the constructor resolves the default [./browsers.json]
    to [D:/code/proj/browsers.json]: the backslashes are gone, but the
    drive letter is left as it was, and the first capital C of the path,
    which belongs to a directory name, is the one that was lowered. *)
Theorem win32_path_first_capital_C :
  cwd windows_host
  = "D:" +++ String backslash ("Code" +++ String backslash "proj")
  /\ path_join windows_host (cwd windows_host) "./browsers.json"
     = "D:" +++ String backslash
         ("Code" +++ String backslash
            ("proj" +++ String backslash "browsers.json"))
  /\ selenoidBrowsersConfigPath (constructor windows_host no_options)
     = "D:/code/proj/browsers.json".
Proof. repeat split. Qed.

(* ================================================================== *)
(** ** The policy theorems at work *)

(** No browsers.json.  With the default options the prepare hook throws
    before any [run] command; with [terminateWdioOnError: false] it goes on
    and ends with the [run] command of the gateway. *)
Lemma config_absent_policy_witness :
  let host := linux_host false in
  let this := constructor host no_options in
  let lenient :=
    constructor host (with_terminateWdioOnError (Some false) no_options) in
  (In (EvPathExists (selenoidBrowsersConfigPath this) false)
     (events (onPrepare host this) [])
   /\ outcome (onPrepare host this) []
      = Throw (SevereServiceError
                 "Unable to find browsers.json at /work/browsers.json")
   /\ Forall (fun ev => is_command "run" ev = false)
        (events (onPrepare host this) []))
  /\ (In (EvPathExists (selenoidBrowsersConfigPath lenient) false)
        (events (onPrepare host lenient) [])
      /\ (exists r, outcome (onPrepare host lenient) [] = Normal r)
      /\ existsb (is_command "run") (events (onPrepare host lenient) []) = true
      /\ last (commands (events (onPrepare host lenient) [])) "" = "run").
Proof.
  cbv zeta. split.
  - assert (HI : In (EvPathExists
                       (selenoidBrowsersConfigPath
                          (constructor (linux_host false) no_options)) false)
                   (events (onPrepare (linux_host false)
                              (constructor (linux_host false) no_options)) [])).
    { vm_compute. do 4 right. left. reflexivity. }
    split; [exact HI |].
    destruct (config_absent_policy (linux_host false)
                (constructor (linux_host false) no_options) [] HI)
      as (_ & _ & Hthrow & _).
    exact (Hthrow eq_refl).
  - assert (HI : In (EvPathExists
                       (selenoidBrowsersConfigPath
                          (constructor (linux_host false)
                             (with_terminateWdioOnError (Some false) no_options)))
                       false)
                   (events (onPrepare (linux_host false)
                              (constructor (linux_host false)
                                 (with_terminateWdioOnError (Some false)
                                    no_options))) [])).
    { vm_compute. do 4 right. left. reflexivity. }
    split; [exact HI |].
    destruct (config_absent_policy (linux_host false)
                (constructor (linux_host false)
                   (with_terminateWdioOnError (Some false) no_options)) [] HI)
      as (_ & _ & _ & Hgo).
    destruct (Hgo eq_refl) as (Hr & _ & _ & _ & Hrun & Hlast).
    split; [exact Hr |]. split; [exact Hrun | exact Hlast].
Defined.

(** browsers.json in place, default options, an engine that rejects the
    [run] command: the prepare hook throws, the command being its last
    event. *)
Lemma gateway_start_failure_policy_witness :
  let host := linux_host true in
  let this := constructor host no_options in
  let failed :=
    EvExeca "docker" (startSelenoid_startArgs host this)
      (Rejected "Unable to find image") in
  In failed (events (onPrepare host this) [])
  /\ (exists d', events (onPrepare host this) [] = d' ++ [failed])
  /\ outcome (onPrepare host this) []
     = Throw (SevereServiceError
                ("Unable to start selenoid container " +++ String newline
                   "Error: Unable to find image")).
Proof.
  cbv zeta.
  assert (HI : In (EvExeca "docker"
                     (startSelenoid_startArgs (linux_host true)
                        (constructor (linux_host true) no_options))
                     (Rejected "Unable to find image"))
                 (events (onPrepare (linux_host true)
                            (constructor (linux_host true) no_options)) [])).
  { vm_compute. do 22 right. left. reflexivity. }
  split; [exact HI |].
  destruct (gateway_start_failure_policy (linux_host true)
              (constructor (linux_host true) no_options) []
              "Unable to find image" HI)
    as (Hlast & _ & Hthrow & _).
  split; [exact Hlast | exact (Hthrow eq_refl)].
Defined.

(* ================================================================== *)
(** * Further properties of the launcher *)

(* ================================================================== *)
(** ** Traces record the host's answers *)

Lemma answered_app host d1 : forall h d2,
  answered host h (d1 ++ d2)
  <-> answered host h d1 /\ answered host (h ++ d1) d2.
Proof.
  induction d1 as [| ev d1 IH]; intros h d2; simpl.
  - rewrite app_nil_r. tauto.
  - rewrite IH, <- app_assoc. simpl. tauto.
Qed.

Section Keeping.

Variable P : list Event -> list Event -> Prop.
Hypothesis P_nil : forall h, P h [].
Hypothesis P_app : forall h d1 d2, P h d1 -> P (h ++ d1) d2 -> P h (d1 ++ d2).

Lemma keeps_ret {A : Type} (a : A) : Keeps P (ret a).
Proof. intros h. apply P_nil. Qed.

Lemma keeps_throw {A : Type} e : Keeps P (@throw A e).
Proof. intros h. apply P_nil. Qed.

Lemma keeps_bind {A B : Type} (m : M A) (f : A -> M B) :
  Keeps P m -> (forall a, Keeps P (f a)) -> Keeps P (bind m f).
Proof.
  intros Hm Hf h. unfold events, bind. specialize (Hm h). unfold events in Hm.
  destruct (m h) as [[a | e] d]; simpl in *; [| assumption].
  specialize (Hf a (h ++ d)). unfold events in Hf.
  destruct (f a (h ++ d)) as [o d2]; simpl in *.
  apply P_app; assumption.
Qed.

Lemma keeps_try_catch {R : Type} (body : Stmt R) handler :
  Keeps P body -> (forall e, Keeps P (handler e)) ->
  Keeps P (try_catch body handler).
Proof.
  intros Hb Hh h. unfold events, try_catch. specialize (Hb h).
  unfold events in Hb. destruct (body h) as [[r | e] d]; simpl in *;
    [assumption |].
  specialize (Hh e (h ++ d)). unfold events in Hh.
  destruct (handler e (h ++ d)) as [o d2]; simpl in *.
  apply P_app; assumption.
Qed.

Lemma keeps_seq {R : Type} (s1 s2 : Stmt R) :
  Keeps P s1 -> Keeps P s2 -> Keeps P (seq s1 s2).
Proof.
  intros H1 H2. apply keeps_bind; [assumption |].
  intros [r |]; [apply keeps_ret | assumption].
Qed.

Lemma keeps_for_rounds {R : Type} (body : nat -> Stmt R) :
  (forall i, Keeps P (body i)) ->
  forall rounds i, Keeps P (for_rounds rounds i body).
Proof.
  intros Hb. induction rounds as [| n IH]; intros i; simpl.
  - apply keeps_ret.
  - apply keeps_seq; [apply Hb | apply IH].
Qed.

Lemma keeps_for_of {A R : Type} (xs : list A) (body : A -> Stmt R) :
  (forall x, Keeps P (body x)) -> Keeps P (for_of xs body).
Proof.
  intros Hb. induction xs as [| x xs IH]; simpl.
  - apply keeps_ret.
  - apply keeps_seq; [apply Hb | apply IH].
Qed.

End Keeping.

Ltac keeps_step P nil_lemma app_lemma :=
  lazymatch goal with
  | |- Keeps _ (async _ _) => unfold async
  | |- Keeps _ (seq _ _) => apply (keeps_seq P nil_lemma app_lemma)
  | |- Keeps _ (await _) => unfold await
  | |- Keeps _ (return_ _) => unfold return_
  | |- Keeps _ (const _ _) => unfold const
  | |- Keeps _ (try_catch _ _) => apply (keeps_try_catch P app_lemma)
  | |- Keeps _ (if_ ?c _ _) => unfold if_
  | |- Keeps _ (for_lt _ _ _) =>
      unfold for_lt; apply (keeps_for_rounds P nil_lemma app_lemma)
  | |- Keeps _ (for_of _ _) => apply (keeps_for_of P nil_lemma app_lemma)
  | |- Keeps _ (bind _ _) => apply (keeps_bind P app_lemma)
  | |- Keeps _ (ret _) => apply (keeps_ret P nil_lemma)
  | |- Keeps _ skip => apply (keeps_ret P nil_lemma)
  | |- Keeps _ (throw_ _) => apply (keeps_throw P nil_lemma)
  | |- Keeps _ (if ?c then _ else _) => destruct c
  | |- Keeps _ (match ?r with Some _ => _ | None => _ end) => destruct r
  | |- Keeps _ (let x := _ in _) => cbv zeta
  | |- Keeps _ (log _ _) => fail
  | |- Keeps _ (execa _ _ _) => fail
  | |- Keeps _ (pathExists _ _) => fail
  | |- Keeps _ (require _ _) => fail
  | |- Keeps _ (sleep _) => fail
  | |- Keeps _ _ => progress (open_method; unfold onPrepare, onComplete)
  | |- forall _, _ => intro
  end.

Section Answers.

Variable host : Host.

Lemma answered_nil h : answered host h [].
Proof. exact I. Qed.

Lemma answered_append h d1 d2 :
  answered host h d1 -> answered host (h ++ d1) d2 ->
  answered host h (d1 ++ d2).
Proof. intros H1 H2. apply answered_app. split; assumption. Qed.

Ltac answers :=
  repeat first
    [ keeps_step (answered host) answered_nil answered_append
    | intros ?h; cbn; tauto ].

Lemma onPrepare_answered this : Keeps (answered host) (onPrepare host this).
Proof. answers. Qed.

Lemma waitForSelenoidToBeRunning_answered this :
  Keeps (answered host) (waitForSelenoidToBeRunning host this).
Proof. answers. Qed.

Lemma pullRequiredBrowserFiles_answered this :
  Keeps (answered host) (pullRequiredBrowserFiles host this).
Proof. answers. Qed.

(** An answer found in an answered trace is an answer of the host. *)
Lemma answered_in d : forall h file args res,
  answered host h d -> In (EvExeca file args res) d ->
  exists h', res = execa_reply host h' file args.
Proof.
  induction d as [| ev d IH]; intros h file args res Ha Hin; [contradiction |].
  destruct Ha as [Hev Ha]. destruct Hin as [-> | Hin].
  - exists h. exact Hev.
  - eapply IH; eassumption.
Qed.

End Answers.

(* ================================================================== *)
(** ** The prepare hook, event by event *)

Section Prepare.

Variable host : Host.
Variable this : SelenoidStandaloneService.

Lemma resolve_then_start_trace h :
  let d4 := events (resolveImages host this) h in
  let line := EvLog Info [Text "Starting Selenoid Container"] in
  let args := startSelenoid_startArgs host this in
  let res := execa_reply host (h ++ d4 ++ [line]) "docker" args in
  bind (resolveImages host this) (fun _ => startSelenoid host this) h
  = (started (o_terminateWdioOnError (options this)) res,
     d4 ++ [line; EvExeca "docker" args res]).
Proof.
  cbv zeta. unfold events.
  destruct (resolveImages host this h) as [o4 d4] eqn:E4.
  pose proof (resolveImages_succeeds host this h) as [[] S4].
  unfold outcome in S4. rewrite E4 in S4. cbn [fst snd] in *. subst o4.
  erewrite bind_run; [| exact E4 |].
  2: { rewrite startSelenoid_run. cbv zeta. reflexivity. }
  rewrite <- app_assoc. reflexivity.
Qed.

(** The trace of the prepare hook, with step 4 named. *)
Lemma onPrepare_trace h :
  exists res1 res2,
    let d12 :=
      [EvLog Info [Text "Stopping any running selenoid containers"];
       EvExeca "docker" ["rm"; "-f"; o_selenoidContainerName (options this)]
         res1;
       EvLog Info [Text "Stopping any running selenoid-ui containers"];
       EvExeca "docker" ["rm"; "-f"; o_selenoidUiContainerName (options this)]
         res2] in
    let path := selenoidBrowsersConfigPath this in
    let found := pathExists_reply host (h ++ d12) path in
    let text := "Unable to find browsers.json at " +++ path in
    if negb found && o_terminateWdioOnError (options this) then
      onPrepare host this h
      = (Throw (SevereServiceError text),
         d12 ++ [EvPathExists path false; EvLog Err [Text text]])
    else
      let d3 :=
        EvPathExists path found
          :: (if found then [] else [EvLog Err [Text text]]) in
      let d4 := events (resolveImages host this) (h ++ d12 ++ d3) in
      let line := EvLog Info [Text "Starting Selenoid Container"] in
      let args := startSelenoid_startArgs host this in
      let res := execa_reply host (h ++ d12 ++ d3 ++ d4 ++ [line]) "docker" args in
      onPrepare host this h
      = (started (o_terminateWdioOnError (options this)) res,
         d12 ++ d3 ++ d4 ++ [line; EvExeca "docker" args res]).
Proof.
  rewrite onPrepare_same_steps. unfold onPrepare_steps.
  pose proof (stopSelenoid_run host this h) as E1. cbv zeta in E1.
  match type of E1 with _ = (_, [_; EvExeca _ _ ?r]) =>
    generalize dependent r; intros res1 E1 end.
  match type of E1 with _ = (_, ?d) => set (d1 := d) in * end.
  pose proof (stopSelenoidUi_run host this (h ++ d1)) as E2. cbv zeta in E2.
  match type of E2 with _ = (_, [_; EvExeca _ _ ?r]) =>
    generalize dependent r; intros res2 E2 end.
  match type of E2 with _ = (_, ?d) => set (d2 := d) in * end.
  exists res1, res2.
  cbv zeta.
  match goal with |- context [pathExists_reply host (h ++ ?d)] =>
    change d with (d1 ++ d2) end.
  rewrite (app_assoc h d1 d2).
  pose proof (verifySelenoidBrowserConfig_run host this ((h ++ d1) ++ d2))
    as E3. cbv zeta in E3.
  set (h2 := (h ++ d1) ++ d2) in *.
  set (path := selenoidBrowsersConfigPath this) in *.
  set (text := "Unable to find browsers.json at " +++ path) in *.
  destruct (pathExists_reply host h2 path) eqn:Efound;
    [| destruct (o_terminateWdioOnError (options this)) eqn:Eterm ];
    cbn [negb andb].
  - pose proof (resolve_then_start_trace (h2 ++ [EvPathExists path true]))
      as E45. cbv zeta in E45.
    erewrite bind_run; [| exact E1 |].
    2: { erewrite bind_run; [| exact E2 |].
         2: { erewrite bind_run; [| exact E3 |]. 2: exact E45.
              reflexivity. }
         reflexivity. }
    unfold h2. rewrite <- !app_assoc. reflexivity.
  - erewrite bind_run; [| exact E1 |].
    2: { erewrite bind_run; [| exact E2 |].
         2: { apply bind_throw. exact E3. }
         reflexivity. }
    rewrite <- app_assoc. reflexivity.
  - pose proof (resolve_then_start_trace
                  (h2 ++ [EvPathExists path false; EvLog Err [Text text]]))
      as E45. cbv zeta in E45.
    erewrite bind_run; [| exact E1 |].
    2: { erewrite bind_run; [| exact E2 |].
         2: { erewrite bind_run; [| exact E3 |]. 2: exact E45.
              reflexivity. }
         reflexivity. }
    unfold h2. rewrite <- !app_assoc, Eterm. reflexivity.
Qed.

Lemma resolveImages_resolution_step :
  Emits resolution_step (resolveImages host this).
Proof. emits. Qed.

End Prepare.

Lemma resolution_step_commands d :
  Forall (fun ev => resolution_step ev = true) d ->
  Forall (fun c => c = "image" \/ c = "pull") (commands d)
  /\ Forall (fun ev => is_pathExists ev = false) d.
Proof.
  induction 1 as [| ev d Hev Hd [IH1 IH2]]; [split; constructor |].
  destruct ev as [| file [| c args] res | | |]; simpl in *;
    try discriminate; (split; [| constructor; [reflexivity | assumption]]);
    try assumption.
  constructor; [| assumption].
  apply orb_true_iff in Hev as [Hc | Hc]; apply String.eqb_eq in Hc; auto.
Qed.

(** X1. The order of the prepare hook.  Whatever the history (a first run
    that crashed, say), the hook begins by removing the gateway container
    and the UI container, then looks for browsers.json, once; after that
    come only [image] and [pull] commands, and last, if the hook got that
    far, the one [run] command. *)
Theorem onPrepare_order
  (host : Host) (this : SelenoidStandaloneService) (h : list Event) :
  exists res1 res2 found rest l tail,
    events (onPrepare host this) h
    = [EvLog Info [Text "Stopping any running selenoid containers"];
       EvExeca "docker" ["rm"; "-f"; o_selenoidContainerName (options this)]
         res1;
       EvLog Info [Text "Stopping any running selenoid-ui containers"];
       EvExeca "docker" ["rm"; "-f"; o_selenoidUiContainerName (options this)]
         res2;
       EvPathExists (selenoidBrowsersConfigPath this) found]
      ++ rest
    /\ Forall (fun ev => is_pathExists ev = false) rest
    /\ commands rest = l ++ tail
    /\ Forall (fun c => c = "image" \/ c = "pull") l
    /\ (tail = [] \/ tail = ["run"]).
Proof.
  destruct (onPrepare_trace host this h) as (res1 & res2 & H).
  cbv zeta in H. exists res1, res2. unfold events.
  destruct (negb _ && _).
  - rewrite H. cbn [snd].
    exists false, [EvLog Err [Text ("Unable to find browsers.json at "
                                   +++ selenoidBrowsersConfigPath this)]],
      [], [].
    repeat split; try constructor; auto.
  - rewrite H. cbn [snd].
    match goal with
    | |- context [EvPathExists _ ?f :: ?logged] =>
        match goal with
        | |- context [events (resolveImages host this) ?h4] =>
            exists f,
              (logged ++ events (resolveImages host this) h4
               ++ [EvLog Info [Text "Starting Selenoid Container"];
                   EvExeca "docker" (startSelenoid_startArgs host this)
                     (execa_reply host
                        (h4 ++ events (resolveImages host this) h4
                         ++ [EvLog Info [Text "Starting Selenoid Container"]])
                        "docker" (startSelenoid_startArgs host this))]),
              (commands (events (resolveImages host this) h4)), ["run"];
            pose proof (resolveImages_resolution_step host this h4) as P4
        end
    end.
    apply resolution_step_commands in P4 as [P4c P4p].
    split; [| split; [| split; [| split]]].
    + unfold events. rewrite <- !app_assoc. simpl.
      destruct (pathExists_reply host _ _); reflexivity.
    + rewrite !Forall_app. split; [| split].
      * destruct (pathExists_reply host _ _); repeat constructor.
      * exact P4p.
      * repeat constructor.
    + rewrite !commands_app.
      destruct (pathExists_reply host _ _); reflexivity.
    + exact P4c.
    + right. reflexivity.
Qed.


(* ================================================================== *)
(** ** Teardown and the UI container *)

(** X3. Teardown never throws.  Whatever the engine answers and whatever
    the policy, [stopSelenoid], [stopSelenoidUi] and the completion hook
    resolve: with the output of the one [rm -f] command they issue, or,
    when the engine rejects it (no such container, engine down), with the
    error they caught.  The completion hook removes the container the
    prepare hook names in its [run] command. *)
Theorem teardown_never_throws
  (host : Host) (this : SelenoidStandaloneService) (exitCode : Z)
  (h : list Event) :
  (exists res,
     onComplete host this exitCode h
     = (Normal (settled res),
        [EvLog Info [Text "Stopping any running selenoid containers"];
         EvExeca "docker"
           ["rm"; "-f"; nth 3 (startSelenoid_startArgs host this) ""] res])
     /\ stopSelenoid host this h = onComplete host this exitCode h)
  /\ (exists res,
        stopSelenoidUi host this h
        = (Normal (settled res),
           [EvLog Info [Text "Stopping any running selenoid-ui containers"];
            EvExeca "docker"
              ["rm"; "-f"; o_selenoidUiContainerName (options this)] res]))
  /\ (forall message, settled (Rejected message) = RError (ExecaError message)).
Proof.
  split; [| split].
  - rewrite onComplete_same_stop, stopSelenoid_run. cbv zeta.
    eexists. split; reflexivity.
  - rewrite stopSelenoidUi_run. cbv zeta. eexists. reflexivity.
  - reflexivity.
Qed.

(** X4. A UI container that does not start is never fatal.  On the same
    history and under the same policy, [startSelenoidUi] resolves whatever
    the engine answers to its [run] command, with the error it caught when
    the command is rejected, while [startSelenoid] throws on a rejected
    command exactly when [terminateWdioOnError] is true. *)
Theorem ui_start_never_fatal
  (host : Host) (this : SelenoidStandaloneService) (h : list Event) :
  let ui_line := EvLog Info [Text "Starting Selenoid-Ui Container"] in
  let ui_res :=
    execa_reply host (h ++ [ui_line]) "docker" (startSelenoidUi_startArgs this) in
  let line := EvLog Info [Text "Starting Selenoid Container"] in
  let res :=
    execa_reply host (h ++ [line]) "docker" (startSelenoid_startArgs host this) in
  startSelenoidUi host this h
  = (Normal (match ui_res with
             | Resolved stdout => RStdout stdout
             | Rejected message => RError (ExecaError message)
             end),
     [ui_line; EvExeca "docker" (startSelenoidUi_startArgs this) ui_res])
  /\ ((exists e, outcome (startSelenoid host this) h = Throw e)
      <-> (exists message, res = Rejected message)
          /\ o_terminateWdioOnError (options this) = true).
Proof.
  cbv zeta. split.
  - unfold startSelenoidUi. unfold_js. simpl.
    destruct (execa_reply host _ _ _); reflexivity.
  - unfold outcome. rewrite startSelenoid_run. cbv zeta. cbn [fst].
    destruct (execa_reply host _ _ _) as [stdout | message].
    + split; [intros [e He]; discriminate | intros [[m Hm] _]; discriminate].
    + destruct (o_terminateWdioOnError (options this)).
      * split; [intros _; split; [eexists |]; reflexivity
               | intros _; eexists; reflexivity].
      * split; [intros [e He]; discriminate | intros [_ Hc]; discriminate].
Qed.

(* ================================================================== *)
(** ** The constructor and the host platform *)

Lemma length_replace_all pat rep s :
  String.length (replace_all pat rep s) = String.length s.
Proof. induction s as [| c s IH]; simpl; [| rewrite IH]; reflexivity. Qed.

Lemma length_replace_first pat rep s :
  String.length (replace_first pat rep s) = String.length s.
Proof.
  induction s as [| c s IH]; simpl; [reflexivity |].
  destruct (Ascii.eqb c pat); simpl; [| rewrite IH]; reflexivity.
Qed.

Lemma occurrences_replace_all pat rep s :
  Ascii.eqb rep pat = false ->
  occurrences rep (replace_all pat rep s)
  = occurrences rep s + occurrences pat s.
Proof.
  intros H. induction s as [| c s IH]; simpl; [reflexivity |].
  rewrite IH. destruct (Ascii.eqb c pat) eqn:E.
  - apply Ascii.eqb_eq in E. subst c. rewrite Ascii.eqb_refl.
    rewrite Ascii.eqb_sym, H. lia.
  - destruct (Ascii.eqb c rep); lia.
Qed.

Lemma occurrences_replace_first pat rep c s :
  Ascii.eqb pat c = false -> Ascii.eqb rep c = false ->
  occurrences c (replace_first pat rep s) = occurrences c s.
Proof.
  intros Hp Hr. induction s as [| a s IH]; simpl; [reflexivity |].
  destruct (Ascii.eqb a pat) eqn:E; simpl.
  - apply Ascii.eqb_eq in E. subst a. rewrite Hp, Hr. reflexivity.
  - rewrite IH. reflexivity.
Qed.

(** X5. What the constructor does with the path, platform by platform.
    Anywhere but on win32 the browsers.json path is [path.join] of the
    working directory and the configured path, untouched, and the engine
    socket is [/var/run/docker.sock].  On win32 the socket is
    [//var/run/docker.sock], and the path is the joined path with the same
    number of characters, no backslash left, and as many forward slashes as
    the joined path had slashes of either kind. *)
Theorem constructor_by_platform (host : Host) (so : ServiceOptions) :
  let this := constructor host so in
  let joined :=
    path_join host (cwd host)
      (or_else (pathToBrowsersConfig so) "./browsers.json") in
  if String.eqb (platform host) "win32" then
    dockerSocketPath this = "//var/run/docker.sock"
    /\ String.length (selenoidBrowsersConfigPath this) = String.length joined
    /\ occurrences backslash (selenoidBrowsersConfigPath this) = 0
    /\ occurrences "/" (selenoidBrowsersConfigPath this)
       = occurrences "/" joined + occurrences backslash joined
  else
    dockerSocketPath this = "/var/run/docker.sock"
    /\ selenoidBrowsersConfigPath this = joined.
Proof.
  cbv zeta. unfold constructor.
  destruct (String.eqb (platform host) "win32");
    cbn [dockerSocketPath selenoidBrowsersConfigPath o_pathToBrowsersConfig].
  - split; [reflexivity |]. split; [| split].
    + rewrite length_replace_all, length_replace_first. reflexivity.
    + apply replace_all_none. reflexivity.
    + rewrite occurrences_replace_all by reflexivity.
      rewrite !occurrences_replace_first by reflexivity. reflexivity.
  - split; reflexivity.
Qed.

(** X6. The drive letter on win32.  When the joined path begins with a
    capital C (a working directory on drive [C:]), the resolved path is the
    joined path with that letter lowered and every backslash turned into a
    forward slash, and nothing else changed; when the joined path holds no
    capital C at all, only the backslashes change. *)
Theorem win32_drive_letter (host : Host) (so : ServiceOptions) :
  platform host = "win32" ->
  let joined :=
    path_join host (cwd host)
      (or_else (pathToBrowsersConfig so) "./browsers.json") in
  let resolved := selenoidBrowsersConfigPath (constructor host so) in
  (forall rest, joined = String "C" rest ->
     resolved = String "c" (replace_all backslash "/" rest))
  /\ (occurrences "C" joined = 0 ->
      resolved = replace_all backslash "/" joined).
Proof.
  intros Hp. cbv zeta. unfold constructor. rewrite Hp.
  change (String.eqb "win32" "win32") with true.
  cbn [selenoidBrowsersConfigPath o_pathToBrowsersConfig]. split.
  - intros rest ->. reflexivity.
  - intros H0. f_equal.
    induction (path_join host (cwd host)
                 (or_else (pathToBrowsersConfig so) "./browsers.json"))
      as [| c s IH]; simpl in *; [reflexivity |].
    destruct (Ascii.eqb c "C"); [discriminate |].
    rewrite IH by assumption. reflexivity.
Qed.

(** On drive C: the default path resolves to [c:/Users/ci/browsers.json]. *)
Lemma win32_drive_letter_witness :
  platform windows_c_host = "win32"
  /\ selenoidBrowsersConfigPath (constructor windows_c_host no_options)
     = "c:/Users/ci/browsers.json".
Proof.
  split; [reflexivity |].
  apply (proj1 (win32_drive_letter windows_c_host no_options eq_refl)
           (":" +++ String backslash
              ("Users" +++ String backslash
                 ("ci" +++ String backslash "browsers.json")))).
  reflexivity.
Defined.

(* ================================================================== *)
(** ** Counting listings and pulls *)

Lemma pulls_of_app img d1 d2 :
  pulls_of img (d1 ++ d2) = pulls_of img d1 + pulls_of img d2.
Proof. unfold pulls_of. rewrite filter_app, length_app. reflexivity. Qed.

Lemma listings_of_app d1 d2 :
  listings_of (d1 ++ d2) = listings_of d1 + listings_of d2.
Proof. unfold listings_of. rewrite filter_app, length_app. reflexivity. Qed.

Lemma pulls_of_check img i res : pulls_of img (check_events i res) = 0.
Proof. destruct res; reflexivity. Qed.

Lemma listings_of_check i res : listings_of (check_events i res) = 1.
Proof. destruct res; reflexivity. Qed.

Lemma pulls_of_error_line img failure : pulls_of img (error_line failure) = 0.
Proof. destruct failure; reflexivity. Qed.

Lemma listings_of_error_line failure : listings_of (error_line failure) = 0.
Proof. destruct failure; reflexivity. Qed.

Lemma pulls_of_pull img i level texts res :
  pulls_of img [EvLog level texts; EvExeca "docker" ["pull"; i] res]
  = if String.eqb i img then 1 else 0.
Proof.
  unfold pulls_of. cbn. destruct (String.eqb i img); reflexivity.
Qed.











Section OneImage.

Variable host : Host.

(** A pass over one image, with the answers of the host. *)
Lemma image_pass_exact image skipped pulling h :
  let res :=
    execa_reply host
      (h ++ [EvLog Debug [Text ("Checking image " +++ image +++ " exists")]])
      "docker" ["image"; "ls"; "-f"; "reference=" +++ image] in
  events
    (async tt
       (const (doesImageExist host image) (fun present =>
        seq
          (if_ present
             (await (log Info [Text skipped]))
             (try_catch
                (seq (await (log Info [Text pulling]))
                     (await (execa host "docker" ["pull"; image])))
                (fun error => await (log Err [Obj error]))))
          (return_ (ret tt)))))
    h
  = check_events image res
    ++ if reported_present res then [EvLog Info [Text skipped]]
       else
         let pull :=
           execa_reply host
             (h ++ check_events image res ++ [EvLog Info [Text pulling]])
             "docker" ["pull"; image] in
         [EvLog Info [Text pulling]; EvExeca "docker" ["pull"; image] pull]
         ++ error_line (match pull with
                        | Resolved _ => None
                        | Rejected message => Some message
                        end).
Proof.
  cbv zeta. unfold events, async, const. unfold bind at 1 2.
  rewrite doesImageExist_check. cbv zeta.
  match goal with |- context [check_events image ?r] => set (res := r) end.
  destruct (reported_present res) eqn:Epresent; unfold_js; simpl.
  - rewrite app_nil_r. reflexivity.
  - rewrite <- !app_assoc. simpl.
    destruct (execa_reply host _ "docker" ["pull"; image]); simpl;
      rewrite ?app_nil_r; reflexivity.
Qed.

Lemma image_pass_pulls image skipped pulling h img :
  let res :=
    execa_reply host
      (h ++ [EvLog Debug [Text ("Checking image " +++ image +++ " exists")]])
      "docker" ["image"; "ls"; "-f"; "reference=" +++ image] in
  pulls_of img
    (events
       (async tt
          (const (doesImageExist host image) (fun present =>
           seq
             (if_ present
                (await (log Info [Text skipped]))
                (try_catch
                   (seq (await (log Info [Text pulling]))
                        (await (execa host "docker" ["pull"; image])))
                   (fun error => await (log Err [Obj error]))))
             (return_ (ret tt)))))
       h)
  = if reported_present res then 0
    else if String.eqb image img then 1 else 0.
Proof.
  cbv zeta. rewrite image_pass_exact. cbv zeta.
  rewrite pulls_of_app, pulls_of_check.
  destruct (reported_present _); [reflexivity |].
  rewrite pulls_of_app, pulls_of_pull, pulls_of_error_line. lia.
Qed.

End OneImage.

(** X8. The UI pass and the gateway pass, counted.  Each lists its own
    image once; if the listing shows the image (or is rejected) the pass
    pulls nothing, and otherwise it pulls its own image exactly once,
    whatever the outcome, and never any other image. *)
Theorem single_image_pass_pulls
  (host : Host) (this : SelenoidStandaloneService) (h : list Event)
  (img : string) :
  let ui := "aerokube/selenoid-ui:" +++ o_selenoidUiVersion (options this) in
  let gateway := "aerokube/selenoid:" +++ o_selenoidVersion (options this) in
  let listing image :=
    execa_reply host
      (h ++ [EvLog Debug [Text ("Checking image " +++ image +++ " exists")]])
      "docker" ["image"; "ls"; "-f"; "reference=" +++ image] in
  pulls_of img (events (pullRequiredSelenoidUiVersion host this) h)
  = (if reported_present (listing ui) then 0
     else if String.eqb ui img then 1 else 0)
  /\ pulls_of img (events (pullRequiredSelenoidVersion host this) h)
     = (if reported_present (listing gateway) then 0
        else if String.eqb gateway img then 1 else 0)
  /\ listings_of (events (pullRequiredSelenoidUiVersion host this) h) = 1
  /\ listings_of (events (pullRequiredSelenoidVersion host this) h) = 1.
Proof.
  cbv zeta. split; [| split; [| split]].
  - apply image_pass_pulls.
  - apply image_pass_pulls.
  - unfold pullRequiredSelenoidUiVersion. cbv zeta.
    rewrite image_pass_exact. cbv zeta.
    rewrite listings_of_app, listings_of_check.
    destruct (reported_present _); [reflexivity |].
    rewrite listings_of_app, listings_of_error_line. reflexivity.
  - unfold pullRequiredSelenoidVersion. cbv zeta.
    rewrite image_pass_exact. cbv zeta.
    rewrite listings_of_app, listings_of_check.
    destruct (reported_present _); [reflexivity |].
    rewrite listings_of_app, listings_of_error_line. reflexivity.
Qed.

(* ================================================================== *)
(** ** When every image is at hand *)

Lemma no_pull_in_nil h : no_pull_in h [].
Proof. constructor. Qed.

Lemma no_pull_in_app h d1 d2 :
  no_pull_in h d1 -> no_pull_in (h ++ d1) d2 -> no_pull_in h (d1 ++ d2).
Proof. intros H1 H2. apply Forall_app. split; assumption. Qed.

Lemma no_pull_in_check h i res : no_pull_in h (check_events i res).
Proof. destruct res; repeat constructor. Qed.

Lemma browser_pass_all_present images d failure :
  BrowserPass images d failure ->
  (forall i res,
     In (EvExeca "docker" ["image"; "ls"; "-f"; "reference=" +++ i] res) d ->
     reported_present res = true) ->
  Forall (fun ev => is_command "pull" ev = false) d /\ failure = None.
Proof.
  assert (Hin : forall i res,
            In (EvExeca "docker" ["image"; "ls"; "-f"; "reference=" +++ i] res)
              (check_events i res))
    by (intros i res; right; left; reflexivity).
  induction 1 as [| i rest res d failure Hp Hpass IH
                  | i rest res stdout d failure Hp Hpass IH
                  | i rest res message Hp]; intros Hall.
  - split; [constructor | reflexivity].
  - destruct IH as [IH1 IH2].
    { intros j r Hj. apply (Hall j). rewrite !in_app_iff. auto. }
    split; [| exact IH2]. rewrite !Forall_app. split; [| split].
    + apply (no_pull_in_check [] i res).
    + repeat constructor.
    + exact IH1.
  - exfalso. rewrite (Hall i res) in Hp; [discriminate |].
    rewrite in_app_iff. left. apply Hin.
  - exfalso. rewrite (Hall i res) in Hp; [discriminate |].
    rewrite in_app_iff. left. apply Hin.
Qed.

Section AllPresent.

Variable host : Host.
Variable this : SelenoidStandaloneService.

Hypothesis every_image_listed : forall h image,
  reported_present
    (execa_reply host h "docker"
       ["image"; "ls"; "-f"; "reference=" +++ image]) = true.

Lemma image_pass_no_pull image skipped pulling :
  Keeps no_pull_in
    (async tt
       (const (doesImageExist host image) (fun present =>
        seq
          (if_ present
             (await (log Info [Text skipped]))
             (try_catch
                (seq (await (log Info [Text pulling]))
                     (await (execa host "docker" ["pull"; image])))
                (fun error => await (log Err [Obj error]))))
          (return_ (ret tt))))).
Proof.
  intros h. rewrite image_pass_exact. cbv zeta.
  rewrite every_image_listed. apply Forall_app. split.
  - apply (no_pull_in_check h).
  - repeat constructor.
Qed.

Lemma browser_pass_no_pull :
  Keeps no_pull_in (pullRequiredBrowserFiles host this).
Proof.
  intros h. pose proof (pullRequiredBrowserFiles_answered host this h) as Ha.
  unfold events in *.
  destruct (pullRequiredBrowserFiles_run host this h) as (d & Erun & Hd).
  cbv zeta in Hd. rewrite Erun in *. cbn [snd] in *.
  constructor; [reflexivity |].
  destruct (require_reply host h (selenoidBrowsersConfigPath this)).
  - destruct Hd as (d' & failure & Hpass & ->).
    destruct (browser_pass_all_present _ _ _ Hpass) as [Hno ->].
    + intros i res Hin.
      destruct (answered_in host _ h "docker"
                  ["image"; "ls"; "-f"; "reference=" +++ i] res Ha)
        as [h' ->].
      * right. rewrite in_app_iff. left. exact Hin.
      * apply every_image_listed.
    + rewrite app_nil_r. exact Hno.
  - subst d. repeat constructor.
Qed.

Lemma resolveImages_no_pull : Keeps no_pull_in (resolveImages host this).
Proof.
  unfold resolveImages.
  destruct (negb (truthy (o_skipAutoPullImages (options this)))).
  - apply (keeps_bind no_pull_in no_pull_in_app);
      [apply browser_pass_no_pull | intros _].
    apply (keeps_bind no_pull_in no_pull_in_app);
      [apply image_pass_no_pull | intros _].
    apply image_pass_no_pull.
  - apply (keeps_ret no_pull_in no_pull_in_nil).
Qed.

End AllPresent.

(** X9. Nothing to pull, nothing pulled.  On a host whose image listings
    always show the image asked for (or are rejected), the prepare hook
    issues no [pull] command, with pulling switched on or off. *)
Theorem onPrepare_pulls_nothing_when_present
  (host : Host) (this : SelenoidStandaloneService) (h : list Event) :
  (forall h' image,
     reported_present
       (execa_reply host h' "docker"
          ["image"; "ls"; "-f"; "reference=" +++ image]) = true) ->
  Forall (fun ev => is_command "pull" ev = false)
    (events (onPrepare host this) h).
Proof.
  intros Hall.
  destruct (onPrepare_trace host this h) as (res1 & res2 & H).
  cbv zeta in H. unfold events at 1.
  destruct (negb _ && _); rewrite H; cbn [snd].
  - repeat constructor.
  - rewrite !Forall_app. split; [| split; [| split]].
    + repeat constructor.
    + destruct (pathExists_reply host _ _); repeat constructor.
    + apply (resolveImages_no_pull host this Hall).
    + repeat constructor.
Qed.

(** With every image at hand and pulling switched on: not one pull. *)
Lemma onPrepare_pulls_nothing_when_present_witness :
  let this := constructor stocked_host no_options in
  truthy (o_skipAutoPullImages (options this)) = false
  /\ Forall (fun ev => is_command "pull" ev = false)
       (events (onPrepare stocked_host this) [])
  /\ listings_of (events (onPrepare stocked_host this) []) = 4.
Proof.
  cbv zeta. split; [reflexivity |]. split; [| vm_compute; reflexivity].
  apply (onPrepare_pulls_nothing_when_present stocked_host
           (constructor stocked_host no_options) []).
  intros h' image. reflexivity.
Defined.

(* ================================================================== *)
(** ** The two extremes of the readiness wait *)

(** X10. On an engine whose container listing never shows the container the
    wait makes exactly ten attempts and sleeps exactly 10000 ms before it
    returns; on one whose listing always shows it the wait makes one
    attempt and does not sleep. *)
Theorem wait_extremes
  (host : Host) (this : SelenoidStandaloneService) (h : list Event)
  (shown : bool) :
  (forall h',
     lists_something
       (execa_reply host h' "docker"
          ["ps"; "-f"; "name=" +++ o_selenoidContainerName (options this)])
     = shown) ->
  let d := events (waitForSelenoidToBeRunning host this) h in
  attempts d = (if shown then 1 else 10)
  /\ slept d = (if shown then 0 else 10000)%Z
  /\ outcome (waitForSelenoidToBeRunning host this) h = Normal tt.
Proof.
  intros Hshown. cbv zeta.
  pose proof (waitForSelenoidToBeRunning_answered host this h) as Ha.
  unfold events, outcome in *.
  destruct (waitForSelenoidToBeRunning_run host this h)
    as (failures & success & Erun & Hfail & Hlast).
  rewrite Erun in *. cbn [fst snd] in *.
  set (args := ["ps"; "-f"; "name=" +++ o_selenoidContainerName (options this)])
    in *.
  assert (Hrec : forall res,
            In (EvExeca "docker" args res)
              (flat_map (failed_round args) failures ++ last_listing args success)
            -> lists_something res = shown).
  { intros res Hin.
    destruct (answered_in host _ h "docker" args res Ha) as [h' ->];
      [right; exact Hin | apply Hshown]. }
  rewrite attempts_log, slept_log, attempts_app, slept_app.
  unfold args at 1. rewrite attempts_failed_rounds, slept_failed_rounds.
  destruct shown.
  - destruct failures as [| res failures].
    + destruct success as [res |]; [| discriminate].
      repeat split.
    + exfalso. inversion Hfail as [| ? ? Hres _]; subst.
      rewrite (Hrec res) in Hres; [discriminate |].
      left. reflexivity.
  - destruct success as [res |].
    + exfalso. destruct Hlast as [Hres _].
      rewrite (Hrec res) in Hres; [discriminate |].
      rewrite in_app_iff. right. left. reflexivity.
    + rewrite Hlast. repeat split.
Qed.

(** The container is listed at once: one attempt, no sleep. *)
Lemma wait_extremes_witness :
  let this := constructor stocked_host no_options in
  (forall h',
     lists_something
       (execa_reply stocked_host h' "docker"
          ["ps"; "-f"; "name=" +++ o_selenoidContainerName (options this)])
     = true)
  /\ attempts (events (waitForSelenoidToBeRunning stocked_host this) []) = 1
  /\ slept (events (waitForSelenoidToBeRunning stocked_host this) []) = 0%Z.
Proof.
  cbv zeta. split; [intros h'; reflexivity |].
  destruct (wait_extremes stocked_host (constructor stocked_host no_options)
              [] true (fun h' => eq_refl)) as (Ha & Hs & _).
  split; assumption.
Defined.

(* ================================================================== *)
(** ** What skipping skips *)

(** X11. With [skipAutoPullImages] truthy the prepare hook skips the checks
    as well as the pulls: browsers.json is never loaded, no image is
    listed, and the only commands are the two removals and, if the
    verification let the hook go on, the [run] of the gateway. *)
Theorem skipping_skips_checks
  (host : Host) (this : SelenoidStandaloneService) (h : list Event) :
  truthy (o_skipAutoPullImages (options this)) = true ->
  let d := events (onPrepare host this) h in
  (commands d = ["rm"; "rm"] \/ commands d = ["rm"; "rm"; "run"])
  /\ Forall (fun ev => is_require ev = false) d
  /\ listings_of d = 0.
Proof.
  intros Hskip. cbv zeta.
  destruct (onPrepare_trace host this h) as (res1 & res2 & H).
  cbv zeta in H. unfold events in *.
  destruct (negb _ && _); rewrite H; cbn [snd].
  - cbn [app]. split; [left; reflexivity |]. split.
    + repeat (apply Forall_cons; [reflexivity |]). apply Forall_nil.
    + reflexivity.
  - rewrite (resolveImages_skipped host this _ Hskip).
    cbn [snd]. destruct (pathExists_reply host _ _); cbn [app].
    all: split; [right; reflexivity |]; split; [| reflexivity].
    all: repeat (apply Forall_cons; [reflexivity |]); apply Forall_nil.
Qed.

(** No image at hand, pulling skipped: two removals and the run. *)
Lemma skipping_skips_checks_witness :
  let host := linux_host true in
  let this := constructor host (with_skipAutoPullImages (Some true) no_options) in
  truthy (o_skipAutoPullImages (options this)) = true
  /\ commands (events (onPrepare host this) []) = ["rm"; "rm"; "run"]
  /\ Forall (fun ev => is_require ev = false) (events (onPrepare host this) []).
Proof.
  cbv zeta. split; [reflexivity |]. split; [vm_compute; reflexivity |].
  apply (skipping_skips_checks (linux_host true)
           (constructor (linux_host true)
              (with_skipAutoPullImages (Some true) no_options)) [] eq_refl).
Defined.

(* ================================================================== *)
(** ** Only the images asked for *)

Section Unasked.

Variable host : Host.
Variable this : SelenoidStandaloneService.
Variable img : string.

Hypothesis not_listed : forall h config,
  require_reply host h (selenoidBrowsersConfigPath this) = Loaded config ->
  ~ In img (browserImages_of config).
Hypothesis not_ui :
  "aerokube/selenoid-ui:" +++ o_selenoidUiVersion (options this) <> img.
Hypothesis not_gateway :
  "aerokube/selenoid:" +++ o_selenoidVersion (options this) <> img.

Lemma never_pulls_nil h : never_pulls img h [].
Proof. reflexivity. Qed.

Lemma never_pulls_app h d1 d2 :
  never_pulls img h d1 -> never_pulls img (h ++ d1) d2 ->
  never_pulls img h (d1 ++ d2).
Proof.
  unfold never_pulls. intros H1 H2. rewrite pulls_of_app, H1, H2. reflexivity.
Qed.

Lemma browser_pass_never_pulls :
  Keeps (never_pulls img) (pullRequiredBrowserFiles host this).
Proof.
  intros h. unfold never_pulls, events.
  destruct (pullRequiredBrowserFiles_run host this h) as (d & Erun & Hd).
  cbv zeta in Hd. rewrite Erun. cbn [snd].
  change (pulls_of img (?e :: ?l)) with (pulls_of img l).
  destruct (require_reply host h (selenoidBrowsersConfigPath this))
    as [config | message] eqn:Ereq.
  - destruct Hd as (d' & failure & Hpass & ->).
    rewrite pulls_of_app, pulls_of_error_line.
    pose proof (browser_pass_pulls_bounded _ _ _ Hpass img) as Hb.
    rewrite (proj1 (count_occ_not_In string_dec _ _) (not_listed h config Ereq))
      in Hb. lia.
  - subst d. reflexivity.
Qed.

Lemma resolveImages_never_pulls :
  Keeps (never_pulls img) (resolveImages host this).
Proof.
  unfold resolveImages.
  destruct (negb (truthy (o_skipAutoPullImages (options this)))).
  - apply (keeps_bind _ never_pulls_app);
      [apply browser_pass_never_pulls | intros _].
    apply (keeps_bind _ never_pulls_app); [| intros _].
    + intros h. unfold never_pulls, pullRequiredSelenoidUiVersion. cbv zeta.
      rewrite image_pass_pulls. cbv zeta.
      destruct (reported_present _); [reflexivity |].
      destruct (String.eqb_spec
                  ("aerokube/selenoid-ui:" +++ o_selenoidUiVersion (options this))
                  img); [contradiction | reflexivity].
    + intros h. unfold never_pulls, pullRequiredSelenoidVersion. cbv zeta.
      rewrite image_pass_pulls. cbv zeta.
      destruct (reported_present _); [reflexivity |].
      destruct (String.eqb_spec
                  ("aerokube/selenoid:" +++ o_selenoidVersion (options this))
                  img); [contradiction | reflexivity].
  - apply (keeps_ret _ never_pulls_nil).
Qed.

End Unasked.

(** X12. The prepare hook pulls only what it was asked for.  An image that
    browsers.json does not list and that is neither the UI image nor the
    gateway image of the options is never pulled, whatever the engine
    answers. *)
Theorem onPrepare_pulls_only_asked
  (host : Host) (this : SelenoidStandaloneService) (h : list Event)
  (img : string) :
  (forall h' config,
     require_reply host h' (selenoidBrowsersConfigPath this) = Loaded config ->
     ~ In img (browserImages_of config)) ->
  "aerokube/selenoid-ui:" +++ o_selenoidUiVersion (options this) <> img ->
  "aerokube/selenoid:" +++ o_selenoidVersion (options this) <> img ->
  pulls_of img (events (onPrepare host this) h) = 0.
Proof.
  intros Hlist Hui Hgw.
  destruct (onPrepare_trace host this h) as (res1 & res2 & H).
  cbv zeta in H. unfold events at 1.
  destruct (negb _ && _); rewrite H; cbn [snd].
  - reflexivity.
  - rewrite !pulls_of_app.
    rewrite (resolveImages_never_pulls host this img Hlist Hui Hgw).
    destruct (pathExists_reply host _ _); reflexivity.
Qed.

(** Nobody asked for nginx: it is not pulled, while the images asked for
    are. *)
Lemma onPrepare_pulls_only_asked_witness :
  let host := linux_host true in
  let this := constructor host no_options in
  pulls_of "nginx:latest" (events (onPrepare host this) []) = 0
  /\ pulls_of "aerokube/selenoid:latest-release"
       (events (onPrepare host this) []) = 1.
Proof.
  cbv zeta. split; [| vm_compute; reflexivity].
  apply (onPrepare_pulls_only_asked (linux_host true)
           (constructor (linux_host true) no_options) [] "nginx:latest").
  - intros h' config Hreq. injection Hreq as <-.
    vm_compute. intros [Ha | [Hb | []]]; discriminate.
  - discriminate.
  - discriminate.
Defined.

(* ================================================================== *)
(** ** Options without effect, and when the gateway is run *)

(** X13. The options [port], [selenoidPort] and [selenoidUiArgs] reach the
    command line of the UI container only; as no hook starts that
    container, the prepare hook and the completion hook are the same,
    outcome and trace, whatever values the three are given, on every
    host. *)
Theorem ui_settings_without_effect
  (host : Host) (so : ServiceOptions) (p sp : option Z)
  (args : option (list string)) (exitCode : Z) (h : list Event) :
  let this := constructor host so in
  let this' := constructor host (with_ui_settings p sp args so) in
  onPrepare host this' h = onPrepare host this h
  /\ onComplete host this' exitCode h = onComplete host this exitCode h
  /\ startSelenoid_startArgs host this' = startSelenoid_startArgs host this.
Proof.
  cbv zeta. rewrite !onPrepare_same_steps, !onComplete_same_stop.
  unfold constructor.
  destruct (String.eqb (platform host) "win32"); destruct so;
    (split; [reflexivity | split; reflexivity]).
Qed.

(** X14. When the gateway is run.  The prepare hook issues its [run] command
    exactly when the verification found browsers.json or
    [terminateWdioOnError] is off; nothing that happens during image
    resolution keeps it from getting there. *)
Theorem gateway_run_reached
  (host : Host) (this : SelenoidStandaloneService) (h : list Event) :
  let d := events (onPrepare host this) h in
  existsb (is_command "run") d = true
  <-> (In (EvPathExists (selenoidBrowsersConfigPath this) true) d
       \/ o_terminateWdioOnError (options this) = false).
Proof.
  cbv zeta.
  destruct (onPrepare_trace host this h) as (res1 & res2 & H).
  cbv zeta in H. unfold events at 1 2.
  destruct (pathExists_reply host _ _) eqn:Efound;
    [| destruct (o_terminateWdioOnError (options this)) eqn:Eterm];
    cbn [negb andb] in H; rewrite H; cbn [snd].
  - split; intros _.
    + left. rewrite !in_app_iff. right. left. left. reflexivity.
    + rewrite !existsb_app. cbn. rewrite !orb_true_r. reflexivity.
  - split.
    + cbn. discriminate.
    + intros [Hin | Hc]; [| discriminate].
      rewrite in_app_iff in Hin. cbn in Hin.
      intuition discriminate.
  - split; intros _.
    + right. reflexivity.
    + rewrite !existsb_app. cbn. rewrite !orb_true_r. reflexivity.
Qed.
